(** * ImageVectorizer: a shallow embedding of the notebook's class

    The class [ImageVectorizer] of [example.ipynb] downloads images, turns
    them into feature vectors with a pretrained network and answers
    nearest-neighbour queries by cosine similarity.  Its methods are
    embedded here as functions in a small state-and-exception monad over
    the object's attributes and the observable world (HTTP requests made,
    temporary buffers left open, lines printed, images displayed).

    The libraries the class calls (requests, PIL/keras image loading, the
    keras model, scipy's cosine distance) are the fields of the class
    [Externals]; numpy's [argmax] and Python's list indexing are written
    out. *)

From Stdlib Require Import List ZArith Lia Bool String Ascii.
From Stdlib Require Import Strings.Byte.
From Stdlib Require Import Floats.SpecFloat.
Import ListNotations.
Open Scope string_scope.
Open Scope list_scope.

Set Implicit Arguments.

(** ** Floating point: IEEE 754 binary64, as Python's [float] *)

Definition float : Type := spec_float.
Definition prec : Z := 53.
Definition emax : Z := 1024.

Definition fzero : float := S754_zero false.            (* 0.0 *)
Definition fone : float := Eval cbv in SFone prec emax. (* 1.  *)
Definition fsub : float -> float -> float := SFsub prec emax.
Definition fleb : float -> float -> bool := SFleb.
Definition fltb : float -> float -> bool := SFltb.

Definition is_nan (x : float) : bool :=
  match x with S754_nan => true | _ => false end.

(** ** Python values, exceptions and list indexing *)

Inductive exn : Type :=
| NameError    (* a free name that is not bound *)
| KeyError     (* a missing mapping key *)
| ValueError   (* int() of a non-number, argmax of an empty sequence *)
| IndexError   (* list index out of range *)
| OSError.     (* image.load_img cannot identify the image *)

Inductive result (A : Type) : Type :=
| Return (a : A)
| Raise (e : exn).
Arguments Raise {A} e.

(** What a method hands back to its caller. *)
Inductive pyval : Type :=
| PyNone
| PyStr (s : string)
| PyInt (z : Z)
| PyTuple (a b : pyval).   (* a pair *)

(** [l[i]] on a Python list: a negative index counts from the end. *)
Definition py_getitem {A : Type} (l : list A) (i : Z) : result A :=
  let n := Z.of_nat (List.length l) in
  let j := if (i <? 0)%Z then (i + n)%Z else i in
  if ((j <? 0) || (n <=? j))%Z then Raise IndexError
  else match nth_error l (Z.to_nat j) with
       | Some a => Return a
       | None => Raise IndexError
       end.

Definition len {A : Type} (l : list A) : Z := Z.of_nat (List.length l).

(** ** numpy.argmax on a sequence of floats

    The index of the first maximum; a NaN counts as maximal, and the
    first NaN ends the scan (numpy's [DOUBLE_argmax]). *)

Fixpoint argmax_scan (mp : float) (max_ind i : nat) (ip : list float) : nat :=
  match ip with
  | [] => max_ind
  | x :: rest =>
      if negb (fleb x mp) then
        if is_nan x then i else argmax_scan x i (S i) rest
      else argmax_scan mp max_ind (S i) rest
  end.

Definition argmax (a : list float) : result nat :=
  match a with
  | [] => Raise ValueError
  | mp :: rest => Return (if is_nan mp then 0 else argmax_scan mp 0 1 rest)
  end.

(** ** The libraries behind the class *)

(** A [requests] response, as far as [download_image] reads it.  A
    request that gets no response at all (requests itself raises) is not
    part of the model. *)
Record response : Type := {
  status_code : Z;
  headers : string -> option string;   (* r.headers[key]; None: no such key *)
  iter_content : list (list byte)      (* the chunks of the streamed body *)
}.

Class Externals : Type := {
  image : Type;    (* a PIL image *)
  array : Type;    (* a numpy pixel array *)
  vector : Type;   (* one row of the model's output *)
  (* requests.get(url, stream=True); the first argument counts the requests
     made before, so the same URL may answer differently over time *)
  requests_get : nat -> string -> response;
  (* int(s) on a string; None: ValueError *)
  int : string -> option Z;
  (* image.load_img(io.BytesIO(data), target_size=(224,224)); None: raises *)
  load_img : list byte -> option image;
  img_to_array : image -> array;
  (* keras.applications.vgg16.VGG16(...).predict and preprocess_input *)
  VGG16 : list array -> list vector;
  preprocess_input : list array -> list array;
  (* scipy.spatial.distance.cosine *)
  cosine : vector -> vector -> float
}.

(** ** The object and the world *)

Record ImageVectorizer `{Externals} : Type := {
  model : list array -> list vector;       (* self.model.predict *)
  preprocess : list array -> list array;   (* self.preprocess *)
  img_links : list string;
  img_vectors : list vector;
  img_titles : list string
}.

Record world : Type := {
  requests : nat;                    (* HTTP requests made so far *)
  open_buffers : nat;                (* temporary files that are still open *)
  stdout : list string;              (* lines printed, oldest first *)
  displayed : list (list string);    (* display(...) calls: the images' urls *)
  naps : nat                         (* time.sleep(0.1) calls *)
}.

Record state `{Externals} : Type := {
  self : ImageVectorizer;
  io : world
}.

(** ** The monad: state passing, with Python exceptions

    An exception abandons the rest of the computation and keeps every
    change made to the state before it was raised. *)

Section Monad.
Context `{Externals}.

Definition M (A : Type) : Type := state -> result A * state.

Definition ret {A : Type} (a : A) : M A := fun st => (Return a, st).

Definition bind {A B : Type} (c : M A) (k : A -> M B) : M B :=
  fun st =>
    match c st with
    | (Return a, st') => k a st'
    | (Raise e, st') => (Raise e, st')
    end.

Definition lift {A : Type} (r : result A) : M A := fun st => (r, st).

Definition get_self : M ImageVectorizer := fun st => (Return (self st), st).

Definition update_self (f : ImageVectorizer -> ImageVectorizer) : M unit :=
  fun st => (Return tt, {| self := f (self st); io := io st |}).

Definition update_io (f : world -> world) : M unit :=
  fun st => (Return tt, {| self := self st; io := f (io st) |}).
End Monad.

Notation "x <- c ;; k" := (bind c (fun x => k))
  (at level 61, c at next level, right associativity).
Notation "c ;; k" := (bind c (fun _ => k))
  (at level 61, right associativity).
Notation "' pat <- c ;; k" := (bind c (fun x => match x with pat => k end))
  (at level 61, pat pattern, c at next level, right associativity).

(** ** tempfile.SpooledTemporaryFile, as far as [download_image] uses it

    The file's contents are a local value; the world only counts the
    files that are open. *)

Record SpooledTemporaryFile : Type := {
  content : list byte;
  position : nat
}.

Definition buffer_write (b : SpooledTemporaryFile) (chunk : list byte)
  : SpooledTemporaryFile :=
  {| content := firstn (position b) (content b) ++ chunk
                ++ skipn (position b + List.length chunk) (content b);
     position := position b + List.length chunk |}.

Definition buffer_seek (b : SpooledTemporaryFile) (offset : nat)
  : SpooledTemporaryFile :=
  {| content := content b; position := offset |}.

Definition buffer_read (b : SpooledTemporaryFile)
  : list byte * SpooledTemporaryFile :=
  (skipn (position b) (content b),
   {| content := content b;
      position := Nat.max (position b) (List.length (content b)) |}).

(** ** The methods of [ImageVectorizer] *)

Section Methods.
Context `{Externals}.

(** *** Effects on the world *)

Definition print (line : string) : M unit :=
  update_io (fun w =>
    {| requests := requests w; open_buffers := open_buffers w;
       stdout := stdout w ++ [line]; displayed := displayed w;
       naps := naps w |}).

Definition display (urls : list string) : M unit :=
  update_io (fun w =>
    {| requests := requests w; open_buffers := open_buffers w;
       stdout := stdout w; displayed := displayed w ++ [urls];
       naps := naps w |}).

Definition time_sleep : M unit :=
  update_io (fun w =>
    {| requests := requests w; open_buffers := open_buffers w;
       stdout := stdout w; displayed := displayed w;
       naps := S (naps w) |}).

Definition new_buffer : M SpooledTemporaryFile :=
  update_io (fun w =>
    {| requests := requests w; open_buffers := S (open_buffers w);
       stdout := stdout w; displayed := displayed w;
       naps := naps w |}) ;;
  ret {| content := []; position := 0 |}.

Definition buffer_close : M unit :=
  update_io (fun w =>
    {| requests := requests w; open_buffers := Nat.pred (open_buffers w);
       stdout := stdout w; displayed := displayed w;
       naps := naps w |}).

(** The end of a local buffer that was never closed: when
    [download_image] returns, its frame is freed, nothing refers to the
    buffer any more and the interpreter finalises it.  An exception keeps
    the frame, and the buffer in it, alive in its traceback. *)
Definition buffer_dropped : M unit :=
  update_io (fun w =>
    {| requests := requests w; open_buffers := Nat.pred (open_buffers w);
       stdout := stdout w; displayed := displayed w;
       naps := naps w |}).

Definition http_get (url : string) : M response :=
  fun st =>
    (Return (requests_get (requests (io st)) url),
     {| self := self st;
        io := {| requests := S (requests (io st));
                 open_buffers := open_buffers (io st);
                 stdout := stdout (io st);
                 displayed := displayed (io st);
                 naps := naps (io st) |} |}).

(** *** __init__

    [preprocess_fn] is the binding of the free name [preprocess_fn] in
    the notebook's global namespace: [None] when the name is unbound,
    as it is in the notebook, where no cell defines it. *)
Definition __init__
    (preprocess_fn : option (list array -> list array))
    (model_arg : option (list array -> list vector))
    (preprocess_arg : option (list array -> list array))
  : result ImageVectorizer :=
  let self_model :=
    match model_arg with
    | Some m => m
    | None => VGG16
    end in
  match
    match preprocess_arg with
    | Some _ =>
        match preprocess_fn with
        | Some f => Return f
        | None => Raise NameError
        end
    | None => Return preprocess_input
    end
  with
  | Raise e => Raise e
  | Return self_preprocess =>
      Return {| model := self_model;
                preprocess := self_preprocess;
                img_links := [];
                img_vectors := [];
                img_titles := [] |}
  end.

(** *** download_image

    [img_arr] starts as None and is returned at the end; the buffer is
    created before the request is made.  [buffer.close()] is called on
    one path only, after the image is decoded; on the other returning
    path the buffer goes with the frame. *)
Definition download_image (image_url : string) : M (option array) :=
  buffer <- new_buffer ;;                  (* tempfile.SpooledTemporaryFile *)
  r <- http_get image_url ;;               (* requests.get *)
  if (status_code r =? 200)%Z then
    (* filesize = int(r.headers['content-length']) *)
    content_length <-
      lift (match headers r "content-length" with
            | Some s => Return s
            | None => Raise KeyError
            end) ;;
    filesize <-
      lift (match int content_length with
            | Some n => Return n
            | None => Raise ValueError
            end) ;;
    (* for chunk in r.iter_content(): downloaded += ...; buffer.write *)
    let '(downloaded, buffer) :=
      fold_left
        (fun '(downloaded, buffer) chunk =>
           (downloaded + List.length chunk, buffer_write buffer chunk))
        (iter_content r) (0, buffer) in
    let buffer := buffer_seek buffer 0 in
    let '(data, buffer) := buffer_read buffer in
    (* img = image.load_img(io.BytesIO(...), target_size=(224,224)) *)
    img <-
      lift (match load_img data with
            | Some img => Return img
            | None => Raise OSError
            end) ;;
    buffer_close ;;
    ret (Some (img_to_array img))          (* return img_arr *)
  else
    buffer_dropped ;;                      (* return img_arr, buffer open *)
    ret None.

(** *** vectorize *)
Definition vectorize (image_url : string) : M (option vector) :=
  img_arr <- download_image image_url ;;
  match img_arr with
  | Some img_arr =>
      let img_arr := [img_arr] in               (* np.expand_dims *)
      s <- get_self ;;
      let processed_img := preprocess s img_arr in
      let preds := model s processed_img in
      v <- lift (py_getitem preds 0) ;;         (* preds[0] *)
      ret (Some v)
  | None => ret None
  end.

(** *** vectorize_links

    [vectorize_loop] is the [for url in image_url_list] loop, with the
    two local lists it appends to. *)
Fixpoint vectorize_loop (image_url_list : list string) (debug : bool)
    (vects : list vector) (goods : list string)
  : M (list vector * list string) :=
  match image_url_list with
  | [] => ret (vects, goods)
  | url :: rest =>
      time_sleep ;;
      v <- vectorize url ;;
      match v with
      | Some v => vectorize_loop rest debug (vects ++ [v]) (goods ++ [url])
      | None =>
          (if debug then print (String.append "error: " url) else ret tt) ;;
          vectorize_loop rest debug vects goods
      end
  end.

Definition set_img_links (l : list string) : M unit :=
  update_self (fun s =>
    {| model := model s; preprocess := preprocess s;
       img_links := l; img_vectors := img_vectors s;
       img_titles := img_titles s |}).

Definition set_img_vectors (l : list vector) : M unit :=
  update_self (fun s =>
    {| model := model s; preprocess := preprocess s;
       img_links := img_links s; img_vectors := l;
       img_titles := img_titles s |}).

Definition set_img_titles (l : list string) : M unit :=
  update_self (fun s =>
    {| model := model s; preprocess := preprocess s;
       img_links := img_links s; img_vectors := img_vectors s;
       img_titles := l |}).

Definition vectorize_links (image_url_list : list string)
    (image_title_list : option (list string)) (debug : bool)
  : M (list string * list vector) :=
  set_img_links [] ;;
  set_img_vectors [] ;;
  set_img_titles [] ;;
  match image_title_list with
  | Some titles => set_img_titles titles
  | None => ret tt
  end ;;
  '(vects, goods) <- vectorize_loop image_url_list debug [] [] ;;
  set_img_links goods ;;
  set_img_vectors vects ;;
  ret (goods, vects).

(** *** _cosine_similarity *)
Definition _cosine_similarity (vector1 vector2 : vector) : float :=
  fsub fone (cosine vector1 vector2).

(** *** view_image *)
Definition view_image (idx : Z) : M pyval :=
  s <- get_self ;;
  if (idx >? len (img_vectors s) - 1)%Z then
    print "index out of bounds!" ;;
    ret PyNone
  else
    i <- lift (py_getitem (img_links s) idx) ;;
    display [i] ;;
    ret PyNone.

(** *** image_similarity

    [similarities] is the loop over [enumerate(self.img_vectors)] that
    fills [sims_vct]; [i] is the counter of [enumerate]. *)
Fixpoint similarities (test_vct : vector) (idx : Z) (i : nat)
    (vectors : list vector) : list float :=
  match vectors with
  | [] => []
  | vct :: rest =>
      (if negb (Z.of_nat i =? idx)%Z
       then _cosine_similarity test_vct vct
       else fzero)
      :: similarities test_vct idx (S i) rest
  end.

Definition image_similarity (idx : Z) : M pyval :=
  s <- get_self ;;
  if (len (img_vectors s) <? 0)%Z then
    print "please run vectorize_links() first!" ;;
    ret PyNone
  else if (idx >? len (img_vectors s) - 1)%Z then
    print "index out of bounds!" ;;
    ret PyNone
  else
    test_img <- lift (py_getitem (img_links s) idx) ;;
    test_vct <- lift (py_getitem (img_vectors s) idx) ;;
    let sims_vct := similarities test_vct idx 0 (img_vectors s) in
    best_idx <- lift (argmax sims_vct) ;;
    o <- lift (py_getitem (img_links s) idx) ;;
    t <- lift (py_getitem (img_links s) (Z.of_nat best_idx)) ;;
    display [o; t] ;;
    if (len (img_titles s) >? Z.of_nat best_idx)%Z then
      title <- lift (py_getitem (img_titles s) (Z.of_nat best_idx)) ;;
      ret (PyStr title)
    else
      ret PyNone.
End Methods.

(** ** What the methods compute, read off the code

    The value of each method as a function of what the network answers,
    without the state passing; the properties below prove that the methods
    compute exactly these. *)

Section Outcomes.
Context `{Externals}.

(** The value of [download_image] when the request is answered by [r]. *)
Definition download_outcome (r : response) : result (option array) :=
  if (status_code r =? 200)%Z then
    match headers r "content-length" with
    | None => Raise KeyError
    | Some s =>
        match int s with
        | None => Raise ValueError
        | Some _ =>
            match load_img (List.concat (iter_content r)) with
            | None => Raise OSError
            | Some img => Return (Some (img_to_array img))
            end
        end
    end
  else Return None.

(** [download_image] reaches its [buffer.close()] only with an image. *)
Definition reaches_close (r : response) : bool :=
  match download_outcome r with
  | Return (Some _) => true
  | _ => false
  end.

(** [download_image] leaves its buffer open exactly when it raises:
    the exception leaves before [buffer.close()]. *)
Definition leaves_open (r : response) : bool :=
  match download_outcome r with
  | Raise _ => true
  | Return _ => false
  end.

(** The value of [vectorize] when the request is answered by [r]. *)
Definition vectorize_outcome (mdl : list array -> list vector)
    (pre : list array -> list array) (r : response)
  : result (option vector) :=
  match download_outcome r with
  | Return (Some img_arr) =>
      match py_getitem (mdl (pre [img_arr])) 0 with
      | Return v => Return (Some v)
      | Raise e => Raise e
      end
  | Return None => Return None
  | Raise e => Raise e
  end.

(** [v] is what a [vectorize] of [url] returned at some request. *)
Definition vectorized_from (mdl : list array -> list vector)
    (pre : list array -> list array) (url : string) (v : vector) : Prop :=
  exists t, vectorize_outcome mdl pre (requests_get t url) = Return (Some v).

(** The values of [vectorize] along a list of urls, the first url being
    the request number [t]. *)
Fixpoint outcomes (mdl : list array -> list vector)
    (pre : list array -> list array) (t : nat) (urls : list string)
  : list (result (option vector)) :=
  match urls with
  | [] => []
  | url :: rest =>
      vectorize_outcome mdl pre (requests_get t url)
      :: outcomes mdl pre (S t) rest
  end.

(** The urls that gave a vector, each with its vector, in input order. *)
Fixpoint successes (urls : list string)
    (outs : list (result (option vector))) : list (string * vector) :=
  match urls, outs with
  | url :: urls', Return (Some v) :: outs' =>
      (url, v) :: successes urls' outs'
  | _ :: urls', _ :: outs' => successes urls' outs'
  | _, _ => []
  end.

(** The first exception among the outcomes, if any. *)
Fixpoint first_raise (outs : list (result (option vector))) : option exn :=
  match outs with
  | [] => None
  | Raise e :: _ => Some e
  | Return _ :: outs' => first_raise outs'
  end.

(** The value of the local variable [best_idx] of [image_similarity]. *)
Definition best_idx (st : state) (idx : Z) : result nat :=
  match py_getitem (img_vectors (self st)) idx with
  | Return test_vct =>
      argmax (similarities test_vct idx 0 (img_vectors (self st)))
  | Raise e => Raise e
  end.

(** The state after one more printed line, and after one more display. *)
Definition printed (line : string) (st : state) : state :=
  snd (print line st).

Definition shown (urls : list string) (st : state) : state :=
  snd (display urls st).

(** The two ways [view_image] and [image_similarity] refuse a call:
    a message on the output, nothing returned, nothing else changed. *)
Definition IndexOutOfRange (st : state) (out : result pyval * state)
  : Prop :=
  out = (Return PyNone, printed "index out of bounds!" st).

Definition EmptyCollection (st : state) (out : result pyval * state)
  : Prop :=
  out = (Return PyNone, printed "please run vectorize_links() first!" st).
End Outcomes.

(** [kept] is [l] with some elements dropped and the others in place. *)
Inductive subsequence {A : Type} : list A -> list A -> Prop :=
| sub_nil : subsequence [] []
| sub_keep (x : A) (kept l : list A) :
    subsequence kept l -> subsequence (x :: kept) (x :: l)
| sub_drop (x : A) (kept l : list A) :
    subsequence kept l -> subsequence kept (x :: l).

(** ** A concrete environment, for running the methods

    Images are their bytes, the "network" answers from a fixed table, and
    the model turns every byte of the picture into one coordinate.  The
    cosine distance is the textbook [1 - u.v / (|u| |v|)] in binary64. *)

Module Demo.

Definition fadd : float -> float -> float := SFadd prec emax.
Definition fmul : float -> float -> float := SFmul prec emax.
Definition fdiv : float -> float -> float := SFdiv prec emax.
Definition fsqrt : float -> float := SFsqrt prec emax.

(** The float nearest to an integer. *)
Definition of_Z (z : Z) : float := binary_normalize prec emax z 0 false.

Fixpoint dot (u v : list float) : float :=
  match u, v with
  | x :: u', y :: v' => fadd (fmul x y) (dot u' v')
  | _, _ => fzero
  end.

Definition cosine_distance (u v : list float) : float :=
  fsub fone (fdiv (dot u v) (fsqrt (fmul (dot u u) (dot v v)))).

Fixpoint digits_value (s : string) (acc : Z) : option Z :=
  match s with
  | EmptyString => Some acc
  | String c rest =>
      let n := nat_of_ascii c in
      if (48 <=? n)%nat && (n <=? 57)%nat
      then digits_value rest (10 * acc + Z.of_nat (n - 48))
      else None
  end.

Definition parse_int (s : string) : option Z :=
  match s with
  | EmptyString => None
  | _ => digits_value s 0
  end.

Definition ok_response (body : list byte) : response :=
  {| status_code := 200;
     headers := fun key =>
       if String.eqb key "content-length" then Some "1" else None;
     iter_content := map (fun b => [b]) body |}.

Definition not_found : response :=
  {| status_code := 404;
     headers := fun _ => None;
     iter_content := [] |}.

(** The table of the demo network.  [flaky] answers only every other
    request; [nolength] lacks the content-length header; [garbage] has a
    body that is no image. *)
Definition serve (t : nat) (url : string) : response :=
  if String.eqb url "http://img/missing" then not_found
  else if String.eqb url "http://img/flaky" then
    if Nat.even t then ok_response [x01; x02] else not_found
  else if String.eqb url "http://img/nolength" then
    {| status_code := 200;
       headers := fun _ => None;
       iter_content := [[x01]] |}
  else if String.eqb url "http://img/garbage" then ok_response []
  else ok_response (list_byte_of_string url).

#[export] Instance env : Externals :=
  {| image := list byte;
     array := list byte;
     vector := list float;
     requests_get := serve;
     int := parse_int;
     load_img := fun data =>
       match data with
       | [] => None
       | _ => Some data
       end;
     img_to_array := fun img => img;
     VGG16 := map (map (fun b => of_Z (Z.of_N (Byte.to_N b))));
     preprocess_input := fun batch => batch;
     cosine := cosine_distance |}.

(** The vector the demo model gives for the picture served at [url]. *)
Definition embedding (url : string) : list float :=
  map (fun b => of_Z (Z.of_N (Byte.to_N b))) (list_byte_of_string url).

Definition quiet : world :=
  {| requests := 0; open_buffers := 0; stdout := [];
     displayed := []; naps := 0 |}.

(** A collection built by hand. *)
Definition collection (links : list string) (vectors : list (list float))
    (titles : list string) : state :=
  {| self := {| model := VGG16; preprocess := preprocess_input;
                img_links := links; img_vectors := vectors;
                img_titles := titles |};
     io := quiet |}.

Definition fresh : state := collection [] [] [].

(** The three vectors of the scenario [1,0], [0,1], [1,0.01], scaled
    by 100 to stay in the integers. *)
Definition three : state :=
  collection ["a"; "b"; "c"]
    [[of_Z 100; of_Z 0]; [of_Z 0; of_Z 100]; [of_Z 100; of_Z 1]]
    ["A"; "B"; "C"].

(** Two opposite vectors. *)
Definition opposite : state :=
  collection ["a"; "b"] [[of_Z 1; of_Z 0]; [of_Z (-1); of_Z 0]] ["A"; "B"].

Definition single : state := collection ["a"] [[of_Z 1; of_Z 0]] ["A"].

End Demo.


(** ** Bookkeeping of a rebuild

    What [vectorize_links] does to the world, counted along the outcomes
    of its urls.  The loop stops at the first exception, so only the urls
    up to that one are tried. *)

Section Accounting.
Context `{Externals}.

(** The world after the request and the buffer handling of one
    [download_image] answered by [r]. *)
Definition after_fetch (r : response) (w : world) : world :=
  {| requests := S (requests w);
     open_buffers :=
       if leaves_open r then S (open_buffers w) else open_buffers w;
     stdout := stdout w;
     displayed := displayed w;
     naps := naps w |}.

(** How many urls the loop tries. *)
Fixpoint attempted (outs : list (result (option vector))) : nat :=
  match outs with
  | [] => 0
  | Raise _ :: _ => 1
  | Return _ :: outs' => S (attempted outs')
  end.

(** The urls tried that gave no vector, in input order. *)
Fixpoint dropped (urls : list string)
    (outs : list (result (option vector))) : list string :=
  match urls, outs with
  | url :: urls', Return None :: outs' => url :: dropped urls' outs'
  | _ :: urls', Return (Some _) :: outs' => dropped urls' outs'
  | _, _ => []
  end.

(** How many of the urls tried leave their buffer open, the first url
    being the request number [t]. *)
Fixpoint left_open (mdl : list array -> list vector)
    (pre : list array -> list array) (t : nat) (urls : list string) : nat :=
  match urls with
  | [] => 0
  | url :: rest =>
      (if leaves_open (requests_get t url) then 1 else 0)
      + match vectorize_outcome mdl pre (requests_get t url) with
        | Raise _ => 0
        | Return _ => left_open mdl pre (S t) rest
        end
  end.

(** The line [print('error:', url)] writes. *)
Definition error_line (url : string) : string := String.append "error: " url.
End Accounting.

(** More collections for the demo environment. *)
Module Cases.


(** A collection left over from an earlier rebuild. *)
Definition stale : state :=
  Demo.collection ["old"] [[Demo.of_Z 7]] ["Old"; "Older"].

End Cases.

(** * Properties *)

(** ** The order on floats that [argmax] relies on *)

Ltac compare_cases :=
  repeat match goal with
    | H : context [Z.compare ?a ?b] |- _ =>
        destruct (Z.compare_spec a b); simpl in H
    | H : context [Pos.compare_cont Eq ?a ?b] |- _ =>
        change (Pos.compare_cont Eq a b) with (Pos.compare a b) in H;
        destruct (Pos.compare_spec a b); simpl in H
    | |- context [Z.compare ?a ?b] =>
        destruct (Z.compare_spec a b); simpl
    | |- context [Pos.compare_cont Eq ?a ?b] =>
        change (Pos.compare_cont Eq a b) with (Pos.compare a b);
        destruct (Pos.compare_spec a b); simpl
    end;
  subst; try reflexivity; try discriminate; try lia.

Lemma fleb_refl (x : float) : is_nan x = false -> fleb x x = true.
Proof.
  unfold fleb, SFleb, SFcompare.
  destruct x as [s | s | | s m e]; simpl; try destruct s;
    intros; compare_cases.
Qed.

(** [y <= mp] and [not (x <= mp)] for a number [x] give [y <= x]. *)
Lemma fleb_below_new_max (y mp x : float) :
  fleb y mp = true -> fleb x mp = false -> is_nan x = false ->
  fleb y x = true.
Proof.
  unfold fleb, SFleb, SFcompare.
  destruct y as [sy | sy | | sy my ey]; try destruct sy;
    destruct mp as [sm | sm | | sm mm em]; try destruct sm;
    destruct x as [sx | sx | | sx mx ex]; try destruct sx;
    simpl; intros; try reflexivity; try discriminate; compare_cases.
Qed.

Lemma fltb_not_fleb (x y : float) : fltb x y = true -> fleb y x = false.
Proof.
  unfold fltb, fleb, SFltb, SFleb, SFcompare.
  destruct x as [sx | sx | | sx mx ex]; try destruct sx;
    destruct y as [sy | sy | | sy my ey]; try destruct sy;
    simpl; intros; try reflexivity; try discriminate; compare_cases.
Qed.

(** ** argmax returns the position of a greatest element *)

Lemma argmax_scan_spec (rest : list float) :
  forall (pre : list float) (mp : float) (max_ind : nat),
    nth_error pre max_ind = Some mp ->
    is_nan mp = false ->
    (forall x, In x pre -> fleb x mp = true) ->
    exists m,
      nth_error (pre ++ rest)
        (argmax_scan mp max_ind (List.length pre) rest) = Some m /\
      (is_nan m = false -> forall x, In x (pre ++ rest) -> fleb x m = true).
Proof.
  induction rest as [| x rest IH]; intros pre mp max_ind Hnth Hmp Hle; simpl.
  - exists mp. rewrite app_nil_r. auto.
  - assert (Hlen : List.length (pre ++ [x]) = S (List.length pre))
      by (rewrite length_app; simpl; lia).
    assert (Happ : (pre ++ [x]) ++ rest = pre ++ x :: rest)
      by (rewrite <- app_assoc; reflexivity).
    destruct (fleb x mp) eqn:Hx; simpl.
    + destruct (IH (pre ++ [x]) mp max_ind) as [m Hm].
      * rewrite nth_error_app1; [assumption |].
        apply nth_error_Some. congruence.
      * assumption.
      * intros y Hy. apply in_app_or in Hy as [Hy | [<- | []]]; auto.
      * rewrite Hlen, Happ in Hm. exists m. exact Hm.
    + destruct (is_nan x) eqn:Hnan.
      * exists x. split.
        -- rewrite nth_error_app2, Nat.sub_diag by lia. reflexivity.
        -- congruence.
      * destruct (IH (pre ++ [x]) x (List.length pre)) as [m Hm].
        -- rewrite nth_error_app2, Nat.sub_diag by lia. reflexivity.
        -- assumption.
        -- intros y Hy. apply in_app_or in Hy as [Hy | [<- | []]].
           ++ apply fleb_below_new_max with mp; auto.
           ++ apply fleb_refl; assumption.
        -- rewrite Hlen, Happ in Hm. exists m. exact Hm.
Qed.

Lemma argmax_spec (a : list float) :
  a <> [] ->
  exists k m,
    argmax a = Return k /\ nth_error a k = Some m /\
    (is_nan m = false -> forall x, In x a -> fleb x m = true).
Proof.
  destruct a as [| mp rest]; [congruence | intros _]; simpl.
  destruct (is_nan mp) eqn:Hnan.
  - exists 0, mp. repeat split. congruence.
  - destruct (@argmax_scan_spec rest [mp] mp 0) as [m Hm]; simpl; auto.
    + intros x [<- | []]. apply fleb_refl; assumption.
    + exists (argmax_scan mp 0 1 rest), m. simpl in Hm. tauto.
Qed.

(** ** Python indexing inside the bounds *)

Lemma py_getitem_nonneg {A : Type} (l : list A) (i : nat) (a : A) :
  nth_error l i = Some a -> py_getitem l (Z.of_nat i) = Return a.
Proof.
  intros Hnth. unfold py_getitem.
  assert (i < List.length l) by (apply nth_error_Some; congruence).
  destruct (Z.ltb_spec (Z.of_nat i) 0); [lia |].
  destruct (Z.ltb_spec (Z.of_nat i) 0); [lia |].
  destruct (Z.leb_spec (Z.of_nat (List.length l)) (Z.of_nat i)); [lia |].
  simpl. rewrite Nat2Z.id, Hnth. reflexivity.
Qed.

Lemma py_getitem_in_range {A : Type} (l : list A) (i : Z) :
  (0 <= i < len l)%Z ->
  exists a, nth_error l (Z.to_nat i) = Some a /\ py_getitem l i = Return a.
Proof.
  unfold len. intros Hi.
  destruct (nth_error l (Z.to_nat i)) as [a |] eqn:Hnth.
  - exists a. split; [reflexivity |].
    rewrite <- (Z2Nat.id i) by lia. apply py_getitem_nonneg. assumption.
  - apply nth_error_None in Hnth. lia.
Qed.

(** ** The buffer holds what was written to it *)

Lemma write_chunks (chunks : list (list byte)) :
  forall (downloaded : nat) (buffer : SpooledTemporaryFile),
    position buffer = List.length (content buffer) ->
    fold_left
      (fun '(downloaded, buffer) chunk =>
         (downloaded + List.length chunk, buffer_write buffer chunk))
      chunks (downloaded, buffer)
    = (downloaded + List.length (List.concat chunks),
       {| content := content buffer ++ List.concat chunks;
          position := List.length (content buffer ++ List.concat chunks) |}).
Proof.
  induction chunks as [| chunk chunks IH]; intros downloaded buffer Hpos; simpl.
  - rewrite app_nil_r, Nat.add_0_r, <- Hpos. destruct buffer; reflexivity.
  - rewrite IH.
    + unfold buffer_write; simpl. rewrite Hpos.
      rewrite firstn_all, skipn_all2 by lia.
      rewrite app_nil_r, <- !app_assoc, !length_app.
      f_equal. lia.
    + unfold buffer_write; simpl. rewrite Hpos.
      rewrite firstn_all, skipn_all2 by lia.
      rewrite app_nil_r, length_app. reflexivity.
Qed.

(** ** One fetch, one vectorization *)

Section Fetching.
Context `{Externals}.

Lemma download_image_run (url : string) (st : state) :
  download_image url st =
    (download_outcome (requests_get (requests (io st)) url),
     {| self := self st;
        io := {| requests := S (requests (io st));
                 open_buffers :=
                   if leaves_open (requests_get (requests (io st)) url)
                   then S (open_buffers (io st))
                   else open_buffers (io st);
                 stdout := stdout (io st);
                 displayed := displayed (io st);
                 naps := naps (io st) |} |}).
Proof.
  unfold download_image, leaves_open, download_outcome, bind, new_buffer,
    http_get, buffer_close, buffer_dropped, update_io, ret, lift; simpl.
  destruct (status_code _ =? 200)%Z; [| reflexivity].
  destruct (headers _ "content-length"); [| reflexivity].
  destruct (int _); [| reflexivity].
  rewrite write_chunks by reflexivity. simpl.
  destruct (load_img _); reflexivity.
Qed.

Lemma vectorize_run (url : string) (st : state) :
  exists w,
    vectorize url st =
      (vectorize_outcome (model (self st)) (preprocess (self st))
         (requests_get (requests (io st)) url),
       {| self := self st; io := w |})
    /\ requests w = S (requests (io st)).
Proof.
  unfold vectorize, vectorize_outcome, bind.
  rewrite download_image_run.
  destruct (download_outcome _) as [[img_arr |] | e]; simpl;
    try (eexists; split; reflexivity).
  unfold lift, ret.
  destruct (py_getitem _ 0); eexists; split; reflexivity.
Qed.
End Fetching.

(** ** Rebuilding the collection *)

Section Rebuild.
Context `{Externals}.

Lemma vectorize_loop_run (urls : list string) (debug : bool) :
  forall (vects : list vector) (goods : list string) (st : state),
    exists w,
      vectorize_loop urls debug vects goods st =
        (match
            first_raise (outcomes (model (self st)) (preprocess (self st))
                           (requests (io st)) urls)
          with
          | Some e => Raise e
          | None =>
              let kept :=
                successes urls
                  (outcomes (model (self st)) (preprocess (self st))
                     (requests (io st)) urls) in
              Return (vects ++ map snd kept, goods ++ map fst kept)
          end,
         {| self := self st; io := w |}).
Proof.
  induction urls as [| url rest IH]; intros vects goods st; simpl.
  - exists (io st). unfold ret. rewrite !app_nil_r. destruct st; reflexivity.
  - unfold bind at 1. unfold time_sleep, update_io at 1.
    unfold bind at 1.
    match goal with
    | |- context [vectorize url ?st1] =>
        destruct (vectorize_run url st1) as (w & -> & Hw)
    end.
    simpl in *.
    destruct (vectorize_outcome _ _ _) as [[v |] | e].
    + match goal with
      | |- context [vectorize_loop rest debug ?vs ?gs ?st1] =>
          destruct (IH vs gs st1) as (w' & ->)
      end.
      simpl. rewrite Hw. exists w'.
      destruct (first_raise _); [reflexivity |].
      simpl. rewrite <- !app_assoc. reflexivity.
    + unfold bind at 1.
      destruct debug; unfold print, update_io, ret; simpl.
      * match goal with
        | |- context [vectorize_loop rest true ?vs ?gs ?st1] =>
            destruct (IH vs gs st1) as (w' & ->)
        end.
        simpl. rewrite Hw. exists w'. reflexivity.
      * match goal with
        | |- context [vectorize_loop rest false ?vs ?gs ?st1] =>
            destruct (IH vs gs st1) as (w' & ->)
        end.
        simpl. rewrite Hw. exists w'. reflexivity.
    + exists w. reflexivity.
Qed.

(** The whole of [vectorize_links]: value and attributes afterwards. *)
Lemma vectorize_links_run (urls : list string)
    (titles : option (list string)) (debug : bool) (st : state) :
  let outs :=
    outcomes (model (self st)) (preprocess (self st))
      (requests (io st)) urls in
  let kept := successes urls outs in
  exists w,
    vectorize_links urls titles debug st =
      (match first_raise outs with
       | Some e => Raise e
       | None => Return (map fst kept, map snd kept)
       end,
       {| self :=
            {| model := model (self st);
               preprocess := preprocess (self st);
               img_links :=
                 match first_raise outs with
                 | Some _ => []
                 | None => map fst kept
                 end;
               img_vectors :=
                 match first_raise outs with
                 | Some _ => []
                 | None => map snd kept
                 end;
               img_titles :=
                 match titles with
                 | Some l => l
                 | None => []
                 end |};
          io := w |}).
Proof.
  intros outs kept. subst outs kept.
  unfold vectorize_links, bind, set_img_links, set_img_vectors,
    set_img_titles, update_self, ret.
  destruct titles as [l |]; simpl;
    match goal with
    | |- context [vectorize_loop urls debug [] [] ?st1] =>
        destruct (vectorize_loop_run urls debug [] [] st1) as (w & ->)
    end;
    simpl; exists w; destruct (first_raise _); reflexivity.
Qed.

Lemma successes_subsequence (urls : list string) :
  forall outs : list (result (option vector)),
    List.length outs = List.length urls ->
    subsequence (map fst (successes urls outs)) urls.
Proof.
  induction urls as [| url rest IH]; intros [| o outs] Hlen;
    simpl in *; try discriminate.
  - constructor.
  - destruct o as [[v |] | e]; simpl; constructor; apply IH; lia.
Qed.

Lemma outcomes_length (mdl : list array -> list vector)
    (pre : list array -> list array) (urls : list string) :
  forall t, List.length (outcomes mdl pre t urls) = List.length urls.
Proof. induction urls; intros t; simpl; auto. Qed.

Lemma successes_vectorized (mdl : list array -> list vector)
    (pre : list array -> list array) (urls : list string) :
  forall t,
    Forall2 (vectorized_from mdl pre)
      (map fst (successes urls (outcomes mdl pre t urls)))
      (map snd (successes urls (outcomes mdl pre t urls))).
Proof.
  induction urls as [| url rest IH]; intros t; simpl; [constructor |].
  destruct (vectorize_outcome mdl pre (requests_get t url))
    as [[v |] | e] eqn:Hout; simpl; auto.
  constructor; [exists t; assumption | apply IH].
Qed.
End Rebuild.

Section RebuildClaims.
Context `{Externals}.

(** With a title list, [vectorize_links] stores the list as it was
    given, whatever happens to the urls. *)
Lemma vectorize_links_keeps_all_titles (urls titles : list string)
    (debug : bool) (st : state) :
  img_titles (self (snd (vectorize_links urls (Some titles) debug st)))
  = titles.
Proof.
  destruct (vectorize_links_run urls (Some titles) debug st) as (w & ->).
  reflexivity.
Qed.

Lemma bad_status_gives_no_vector (mdl : list array -> list vector)
    (pre : list array -> list array) (r : response) :
  status_code r <> 200%Z -> vectorize_outcome mdl pre r = Return None.
Proof.
  intros Hstatus. apply Z.eqb_neq in Hstatus.
  unfold vectorize_outcome, download_outcome. rewrite Hstatus. reflexivity.
Qed.

(** C9, as the code has it. The stored locations are always the input
    list with some urls dropped and the others in place.  When every
    failing url fails by returning no result (a status other than 200),
    so that no [vectorize] raises, the stored locations and vectors are
    exactly the urls that gave a vector, with their vectors, in the
    order of the input list, and they are what the call returns.  When
    a [vectorize] raises (a body that does not decode, a missing
    content-length), the rebuild raises the same exception and the
    stored locations and vectors are empty.  In particular, five urls of
    which the second and the fourth answer with a status other than 200
    leave three locations and vectors, those of the first, third and
    fifth url, in this order.  The titles are stored as they were given
    in every case. *)
Theorem vectorize_links_keeps_input_order :
  (forall (urls : list string) (titles : option (list string))
          (debug : bool) (st : state),
      subsequence
        (img_links (self (snd (vectorize_links urls titles debug st))))
        urls) /\
  (forall (urls : list string) (titles : option (list string))
          (debug : bool) (st : state),
      let outs :=
        outcomes (model (self st)) (preprocess (self st))
          (requests (io st)) urls in
      let kept := successes urls outs in
      let after := vectorize_links urls titles debug st in
      first_raise outs = None ->
      fst after = Return (map fst kept, map snd kept) /\
      img_links (self (snd after)) = map fst kept /\
      img_vectors (self (snd after)) = map snd kept /\
      img_titles (self (snd after))
      = match titles with
        | Some l => l
        | None => []
        end) /\
  (forall (urls : list string) (titles : option (list string))
          (debug : bool) (st : state) (e : exn),
      let outs :=
        outcomes (model (self st)) (preprocess (self st))
          (requests (io st)) urls in
      let after := vectorize_links urls titles debug st in
      first_raise outs = Some e ->
      fst after = Raise e /\
      img_links (self (snd after)) = [] /\
      img_vectors (self (snd after)) = [] /\
      img_titles (self (snd after))
      = match titles with
        | Some l => l
        | None => []
        end) /\
  (forall (u0 u1 u2 u3 u4 : string) (v0 v2 v4 : vector)
          (titles : option (list string)) (debug : bool) (st : state),
      let answer i url := requests_get (i + requests (io st)) url in
      let vec i url :=
        vectorize_outcome (model (self st)) (preprocess (self st))
          (answer i url) in
      let after := vectorize_links [u0; u1; u2; u3; u4] titles debug st in
      vec 0 u0 = Return (Some v0) ->
      status_code (answer 1 u1) <> 200%Z ->
      vec 2 u2 = Return (Some v2) ->
      status_code (answer 3 u3) <> 200%Z ->
      vec 4 u4 = Return (Some v4) ->
      fst after = Return ([u0; u2; u4], [v0; v2; v4]) /\
      img_links (self (snd after)) = [u0; u2; u4] /\
      img_vectors (self (snd after)) = [v0; v2; v4] /\
      img_titles (self (snd after))
      = match titles with
        | Some l => l
        | None => []
        end).
Proof.
  split; [| split; [| split]].
  - intros urls titles debug st.
    destruct (vectorize_links_run urls titles debug st) as (w & ->).
    simpl. destruct (first_raise _).
    + clear. induction urls; constructor; assumption.
    + apply successes_subsequence. apply outcomes_length.
  - intros urls titles debug st outs kept after Hraise.
    subst after.
    destruct (vectorize_links_run urls titles debug st) as (w & ->).
    fold outs. fold kept. rewrite Hraise. simpl.
    repeat split.
  - intros urls titles debug st e outs after Hraise.
    subst after.
    destruct (vectorize_links_run urls titles debug st) as (w & ->).
    fold outs. rewrite Hraise. simpl.
    repeat split.
  - intros u0 u1 u2 u3 u4 v0 v2 v4 titles debug st answer vec after
      H0 H1 H2 H3 H4.
    apply (bad_status_gives_no_vector (model (self st))
             (preprocess (self st))) in H1, H3.
    subst after vec answer. simpl in H0, H1, H2, H3, H4.
    destruct (vectorize_links_run [u0; u1; u2; u3; u4] titles debug st)
      as (w & ->).
    simpl. rewrite H0, H1, H2, H3, H4. simpl. repeat split.
Qed.

(** C10. After construction both stored lists are empty, and after
    every [vectorize_links], returned or raised, the stored locations
    and the stored vectors have the same length and each stored vector
    is what a [vectorize] of the location at the same index returned. *)
Theorem stored_vectors_come_from_stored_links :
  (forall (preprocess_fn : option (list array -> list array))
          (model_arg : option (list array -> list vector))
          (preprocess_arg : option (list array -> list array)),
      match __init__ preprocess_fn model_arg preprocess_arg with
      | Return s => img_links s = [] /\ img_vectors s = []
      | Raise _ => True
      end) /\
  (forall (urls : list string) (titles : option (list string))
          (debug : bool) (st : state),
      let s := self (snd (vectorize_links urls titles debug st)) in
      List.length (img_links s) = List.length (img_vectors s) /\
      Forall2 (vectorized_from (model (self st)) (preprocess (self st)))
        (img_links s) (img_vectors s)).
Proof.
  split.
  - intros preprocess_fn model_arg preprocess_arg. unfold __init__.
    destruct preprocess_arg, preprocess_fn; simpl; auto.
  - intros urls titles debug st s. subst s.
    destruct (vectorize_links_run urls titles debug st) as (w & ->).
    simpl.
    destruct (first_raise _).
    + split; [reflexivity | constructor].
    + split; [rewrite !length_map; reflexivity |].
      apply successes_vectorized.
Qed.
End RebuildClaims.

(** ** Fetching: what comes back, and what stays open *)

Section FetchClaims.
Context `{Externals}.

(** C5, as the code has it. [download_image] returns no result when
    the status code is not 200.  With status 200 nothing is caught: a
    missing content-length header raises KeyError, one that is no number
    raises ValueError, and bytes that do not decode raise OSError, each
    out of [download_image] to its caller. *)
Theorem download_image_no_result_only_for_status (url : string)
    (st : state) :
  let r := requests_get (requests (io st)) url in
  let out := fst (download_image url st) in
  (status_code r <> 200%Z -> out = Return None) /\
  (status_code r = 200%Z ->
   headers r "content-length" = None -> out = Raise KeyError) /\
  (forall s : string,
      status_code r = 200%Z ->
      headers r "content-length" = Some s ->
      int s = None -> out = Raise ValueError) /\
  (forall (s : string) (n : Z),
      status_code r = 200%Z ->
      headers r "content-length" = Some s ->
      int s = Some n ->
      load_img (List.concat (iter_content r)) = None ->
      out = Raise OSError).
Proof.
  intros r out. subst out. rewrite download_image_run. fold r. simpl.
  unfold download_outcome.
  repeat split.
  - intros Hstatus. apply Z.eqb_neq in Hstatus. rewrite Hstatus.
    reflexivity.
  - intros -> ->. reflexivity.
  - intros s -> -> ->. reflexivity.
  - intros s n -> -> -> ->. reflexivity.
Qed.

(** The buffer opened by [download_image] is still open afterwards
    exactly when the call raised. *)
Lemma download_image_open_buffers (url : string) (st : state) :
  open_buffers (io (snd (download_image url st))) =
    if leaves_open (requests_get (requests (io st)) url)
    then S (open_buffers (io st))
    else open_buffers (io st).
Proof. rewrite download_image_run. reflexivity. Qed.

(** With a bad status [buffer.close()] is not reached, and nothing is
    left open either: the call returns. *)
Lemma bad_status_never_closes (r : response) :
  status_code r <> 200%Z -> reaches_close r = false /\ leaves_open r = false.
Proof.
  intros Hstatus. apply Z.eqb_neq in Hstatus.
  unfold reaches_close, leaves_open, download_outcome. rewrite Hstatus.
  split; reflexivity.
Qed.

(** C6. A preprocessing function given to the constructor is never
    stored: the constructor reads the global name [preprocess_fn]
    instead, which raises NameError when unbound (as in the notebook) and
    stores that other function when bound.  Without the argument the
    VGG16 pair is stored. *)
Theorem init_does_not_use_supplied_preprocess
    (model_arg : option (list array -> list vector))
    (f : list array -> list array) :
  __init__ None model_arg (Some f) = Raise NameError /\
  (forall g : list array -> list array,
      __init__ (Some g) model_arg (Some f) =
        Return {| model := match model_arg with
                           | Some m => m
                           | None => VGG16
                           end;
                  preprocess := g;
                  img_links := []; img_vectors := []; img_titles := [] |}) /\
  (forall preprocess_fn : option (list array -> list array),
      __init__ preprocess_fn None None =
        Return {| model := VGG16;
                  preprocess := preprocess_input;
                  img_links := []; img_vectors := []; img_titles := [] |}).
Proof. repeat split. Qed.
End FetchClaims.

(** ** Looking up and comparing *)

Section SimilarityClaims.
Context `{Externals}.

Lemma similarities_nth (test_vct : vector) (idx : Z)
    (vectors : list vector) :
  forall i k : nat,
    nth_error (similarities test_vct idx i vectors) k =
      match nth_error vectors k with
      | Some vct =>
          Some (if negb (Z.of_nat (i + k) =? idx)%Z
                then _cosine_similarity test_vct vct
                else fzero)
      | None => None
      end.
Proof.
  induction vectors as [| vct rest IH]; intros i [| k]; simpl;
    try reflexivity.
  - rewrite Nat.add_0_r. reflexivity.
  - rewrite IH. replace (S i + k) with (i + S k) by lia. reflexivity.
Qed.

Lemma similarities_length (test_vct : vector) (idx : Z)
    (vectors : list vector) :
  forall i : nat,
    List.length (similarities test_vct idx i vectors)
    = List.length vectors.
Proof. induction vectors; intros i; simpl; auto. Qed.

(** C4, as the code has it. For every collection, empty or not, and
    every index greater than or equal to its size, [view_image] and
    [image_similarity] both print "index out of bounds!" and return
    nothing, changing nothing else. *)
Theorem index_at_or_past_size_is_out_of_range (st : state) (idx : Z) :
  (len (img_vectors (self st)) <= idx)%Z ->
  IndexOutOfRange st (view_image idx st) /\
  IndexOutOfRange st (image_similarity idx st).
Proof.
  intros Hidx. unfold IndexOutOfRange, view_image, image_similarity,
    bind, get_self.
  assert (Hlen : (len (img_vectors (self st)) <? 0)%Z = false)
    by (apply Z.ltb_ge; unfold len; lia).
  assert (Hgt : (idx >? len (img_vectors (self st)) - 1)%Z = true)
    by (rewrite Z.gtb_ltb; apply Z.ltb_lt; lia).
  rewrite Hlen, Hgt. split; reflexivity.
Qed.

(** A call of [image_similarity] with an index inside a collection
    whose locations and vectors are parallel: it shows the reference and
    the best match, and returns the title stored at the best index, or
    nothing when the titles stop before it. *)
Lemma image_similarity_run (st : state) (idx : Z) :
  (0 <= idx < len (img_vectors (self st)))%Z ->
  List.length (img_links (self st))
  = List.length (img_vectors (self st)) ->
  exists (best : nat) (o t : string),
    best_idx st idx = Return best /\
    best < List.length (img_vectors (self st)) /\
    nth_error (img_links (self st)) (Z.to_nat idx) = Some o /\
    nth_error (img_links (self st)) best = Some t /\
    image_similarity idx st =
      (Return match nth_error (img_titles (self st)) best with
              | Some title => PyStr title
              | None => PyNone
              end,
       shown [o; t] st).
Proof.
  intros Hidx Hlinks.
  destruct (py_getitem_in_range (img_vectors (self st)) Hidx)
    as (test_vct & Hvct & Hgetv).
  assert (Hidx' : (0 <= idx < len (img_links (self st)))%Z)
    by (unfold len in *; lia).
  destruct (py_getitem_in_range (img_links (self st)) Hidx')
    as (o & Ho & Hgeto).
  destruct (@argmax_spec
              (similarities test_vct idx 0 (img_vectors (self st))))
    as (best & m & Hbest & Hm & _).
  { intros Hnil. apply (f_equal (@List.length float)) in Hnil.
    rewrite similarities_length in Hnil. unfold len in Hidx.
    simpl in Hnil. lia. }
  assert (Hlt : best < List.length (img_vectors (self st))).
  { rewrite <- (similarities_length test_vct idx (img_vectors (self st)) 0).
    apply nth_error_Some. congruence. }
  destruct (nth_error (img_links (self st)) best) as [t |] eqn:Ht;
    [| apply nth_error_None in Ht; lia].
  exists best, o, t.
  unfold best_idx. rewrite Hgetv. repeat split; try assumption.
  unfold image_similarity, bind, get_self, lift, shown, display, update_io,
    ret.
  assert (Hlen : (len (img_vectors (self st)) <? 0)%Z = false)
    by (apply Z.ltb_ge; unfold len; lia).
  assert (Hgt : (idx >? len (img_vectors (self st)) - 1)%Z = false)
    by (rewrite Z.gtb_ltb; apply Z.ltb_ge; lia).
  rewrite Hlen, Hgt, Hgeto, Hgetv, Hbest.
  rewrite (py_getitem_nonneg _ _ Ht). simpl.
  rewrite Z.gtb_ltb.
  destruct (nth_error (img_titles (self st)) best) as [title |] eqn:Htitle.
  - assert (best < List.length (img_titles (self st)))
      by (apply nth_error_Some; congruence).
    destruct (Z.ltb_spec (Z.of_nat best) (len (img_titles (self st))));
      [| unfold len in *; lia].
    rewrite (py_getitem_nonneg _ _ Htitle). reflexivity.
  - apply nth_error_None in Htitle.
    destruct (Z.ltb_spec (Z.of_nat best) (len (img_titles (self st))));
      [unfold len in *; lia | reflexivity].
Qed.
End SimilarityClaims.

Section BestMatchClaims.
Context `{Externals}.

(** C2, as the code has it. For a valid reference index the score at
    that index is the constant 0.0, not a computed similarity, and the
    reference is not the best match whenever some other member has a
    similarity to it above 0.0: the 0.0 is then not the maximum. *)
Theorem reference_not_best_when_some_similarity_positive
    (st : state) (idx : Z) (test_vct vct : vector) (j : nat) :
  (0 <= idx < len (img_vectors (self st)))%Z ->
  List.length (img_links (self st))
  = List.length (img_vectors (self st)) ->
  nth_error (img_vectors (self st)) (Z.to_nat idx) = Some test_vct ->
  nth_error (img_vectors (self st)) j = Some vct ->
  Z.of_nat j <> idx ->
  fltb fzero (_cosine_similarity test_vct vct) = true ->
  nth_error (similarities test_vct idx 0 (img_vectors (self st)))
    (Z.to_nat idx) = Some fzero /\
  exists (best : nat) (o t : string),
    best_idx st idx = Return best /\
    Z.of_nat best <> idx /\
    nth_error (img_links (self st)) (Z.to_nat idx) = Some o /\
    nth_error (img_links (self st)) best = Some t /\
    image_similarity idx st =
      (Return match nth_error (img_titles (self st)) best with
              | Some title => PyStr title
              | None => PyNone
              end,
       shown [o; t] st).
Proof.
  intros Hidx Hlinks Htest Hj Hne Hpos.
  assert (Hself :
    nth_error (similarities test_vct idx 0 (img_vectors (self st)))
      (Z.to_nat idx) = Some fzero).
  { rewrite similarities_nth, Htest. simpl.
    rewrite Z2Nat.id, Z.eqb_refl by lia. reflexivity. }
  split; [exact Hself |].
  destruct (image_similarity_run st Hidx Hlinks)
    as (best & o & t & Hbest & Hlt & Ho & Ht & Hrun).
  exists best, o, t. repeat split; try assumption.
  intros Heq.
  unfold best_idx in Hbest.
  destruct (py_getitem_in_range (img_vectors (self st)) Hidx)
    as (test_vct' & Htest' & Hget).
  rewrite Hget in Hbest.
  assert (test_vct' = test_vct) by congruence. subst test_vct'.
  destruct (@argmax_spec
              (similarities test_vct idx 0 (img_vectors (self st))))
    as (k & m & Hk & Hm & Hmax).
  { intros Hnil. rewrite Hnil in Hself.
    destruct (Z.to_nat idx); discriminate. }
  assert (k = best) by congruence. subst k.
  assert (Z.to_nat idx = best) by lia.
  assert (m = fzero) by congruence. subst m.
  assert (Hin : In (_cosine_similarity test_vct vct)
                  (similarities test_vct idx 0 (img_vectors (self st)))).
  { apply nth_error_In with j. rewrite similarities_nth, Hj. simpl.
    destruct (Z.eqb_spec (Z.of_nat j) idx); [contradiction | reflexivity]. }
  apply Hmax in Hin; [| reflexivity].
  apply fltb_not_fleb in Hpos. congruence.
Qed.

(** C7, as the code has it. For a valid reference index into a
    collection with parallel locations and vectors, [image_similarity]
    raises nothing, shows the reference and the best match, and returns
    the title stored at the best index when there is one and None when
    there is none.  The best index is not part of what it returns: the
    value is never a pair. *)
Theorem image_similarity_returns_title_or_none (st : state) (idx : Z) :
  (0 <= idx < len (img_vectors (self st)))%Z ->
  List.length (img_links (self st))
  = List.length (img_vectors (self st)) ->
  exists (best : nat) (o t : string),
    best_idx st idx = Return best /\
    nth_error (img_links (self st)) (Z.to_nat idx) = Some o /\
    nth_error (img_links (self st)) best = Some t /\
    image_similarity idx st =
      (Return match nth_error (img_titles (self st)) best with
              | Some title => PyStr title
              | None => PyNone
              end,
       shown [o; t] st) /\
    (forall a b : pyval,
        fst (image_similarity idx st) <> Return (PyTuple a b)).
Proof.
  intros Hidx Hlinks.
  destruct (image_similarity_run st Hidx Hlinks)
    as (best & o & t & Hbest & Hlt & Ho & Ht & Hrun).
  exists best, o, t. repeat split; try assumption.
  intros a b. rewrite Hrun. simpl.
  destruct (nth_error (img_titles (self st)) best); discriminate.
Qed.

Lemma snoc_not_self {A : Type} (l : list A) (a : A) : l ++ [a] <> l.
Proof.
  intros Heq. apply (f_equal (@List.length A)) in Heq.
  rewrite length_app in Heq. simpl in Heq. lia.
Qed.

(** The branch that prints "please run vectorize_links() first!" is
    never taken: no call of [image_similarity] ends that way. *)
Lemma image_similarity_never_reports_empty (st : state) (idx : Z) :
  ~ EmptyCollection st (image_similarity idx st).
Proof.
  unfold EmptyCollection, image_similarity, bind, get_self, lift, printed,
    print, display, update_io, ret.
  assert (Hlen : (len (img_vectors (self st)) <? 0)%Z = false)
    by (apply Z.ltb_ge; unfold len; lia).
  rewrite Hlen.
  destruct (idx >? _)%Z.
  - simpl. intros Heq. injection Heq as Heq.
    apply app_inv_head in Heq. discriminate.
  - repeat match goal with
      | |- context [match ?r with Return _ => _ | Raise _ => _ end] =>
          destruct r; simpl; try discriminate
      | |- context [if ?b then _ else _] =>
          destruct b; simpl; try discriminate
      end;
      intros Heq; injection Heq as Hout Hshown;
      symmetry in Hout, Hshown;
      solve [ eapply snoc_not_self; eassumption
            | symmetry in Hout; eapply snoc_not_self; eassumption ].
Qed.
End BestMatchClaims.

(** ** The methods at work in the demo environment *)

(** C1. Two urls with their titles, the first url answering 404: one
    location and one vector are stored, but both titles, and the title at
    index 0 is the one of the url that failed; [image_similarity] hands it
    out as the title of the stored image. *)
Theorem titles_are_not_filtered_with_the_links :
  let after :=
    vectorize_links ["http://img/missing"; "http://img/a"]
      (Some ["M"; "A"]) true Demo.fresh in
  img_links (self (snd after)) = ["http://img/a"] /\
  img_vectors (self (snd after)) = [Demo.embedding "http://img/a"] /\
  img_titles (self (snd after)) = ["M"; "A"] /\
  fst (image_similarity 0 (snd after)) = Return (PyStr "M").
Proof. vm_compute. repeat split. Qed.

(** C2, refuted as stated. In a collection of one, and in a collection
    of two opposite vectors (similarity -1.0), the best match of index 0
    is index 0 itself: the forced 0.0 is the maximum. *)
Lemma reference_is_its_own_best_match :
  best_idx Demo.single 0 = Return 0 /\
  image_similarity 0 Demo.single =
    (Return (PyStr "A"), shown ["a"; "a"] Demo.single) /\
  similarities (H := Demo.env) [Demo.of_Z 1; Demo.of_Z 0] 0 0
    (img_vectors (self Demo.opposite)) = [fzero; Demo.of_Z (-1)] /\
  best_idx Demo.opposite 0 = Return 0 /\
  image_similarity 0 Demo.opposite =
    (Return (PyStr "A"), shown ["a"; "a"] Demo.opposite).
Proof. repeat split. Qed.

(** The scenario of three vectors [1,0], [0,1], [1,0.01]: index 2 is the
    best match of index 0, and index 0 the one of index 2. *)
Lemma three_vectors_scenario :
  best_idx Demo.three 0 = Return 2 /\ best_idx Demo.three 2 = Return 0.
Proof. vm_compute. split; reflexivity. Qed.

Lemma reference_not_best_witness :
  (0 <= 0 < len (img_vectors (self Demo.three)))%Z /\
  fltb fzero
    (_cosine_similarity (H := Demo.env)
       [Demo.of_Z 100; Demo.of_Z 0] [Demo.of_Z 100; Demo.of_Z 1]) = true /\
  exists (best : nat) (o t : string),
    best_idx Demo.three 0 = Return best /\
    Z.of_nat best <> 0%Z /\
    nth_error (img_links (self Demo.three)) (Z.to_nat 0) = Some o /\
    nth_error (img_links (self Demo.three)) best = Some t /\
    image_similarity 0 Demo.three =
      (Return match nth_error (img_titles (self Demo.three)) best with
              | Some title => PyStr title
              | None => PyNone
              end,
       shown [o; t] Demo.three).
Proof.
  split; [unfold len; simpl; lia |].
  split; [vm_compute; reflexivity |].
  apply (@reference_not_best_when_some_similarity_positive Demo.env
           Demo.three 0 [Demo.of_Z 100; Demo.of_Z 0]
           [Demo.of_Z 100; Demo.of_Z 1] 2).
  - unfold len; simpl; lia.
  - reflexivity.
  - reflexivity.
  - reflexivity.
  - simpl; lia.
  - vm_compute; reflexivity.
Defined.

(** C3. On the empty collection index 0 is answered with "index out of
    bounds!", not with "please run vectorize_links() first!", and index -1
    raises IndexError. *)
Theorem empty_collection_is_not_reported :
  IndexOutOfRange Demo.fresh (image_similarity 0 Demo.fresh) /\
  ~ EmptyCollection Demo.fresh (image_similarity 0 Demo.fresh) /\
  fst (image_similarity (-1) Demo.fresh) = Raise IndexError.
Proof.
  repeat split. apply image_similarity_never_reports_empty.
Qed.

(** C4, refuted as stated. Index -1 is not refused on a collection of
    one: [view_image] shows the last image and [image_similarity] compares
    it, with itself too. *)
Lemma negative_index_is_accepted :
  view_image (-1) Demo.single = (Return PyNone, shown ["a"] Demo.single) /\
  ~ IndexOutOfRange Demo.single (view_image (-1) Demo.single) /\
  image_similarity (-1) Demo.single =
    (Return (PyStr "A"), shown ["a"; "a"] Demo.single) /\
  ~ IndexOutOfRange Demo.single (image_similarity (-1) Demo.single).
Proof.
  repeat split; unfold IndexOutOfRange; intros Heq;
    apply (f_equal (fun out => stdout (io (snd out)))) in Heq;
    vm_compute in Heq; discriminate Heq.
Qed.

Lemma index_at_or_past_size_witness :
  (len (img_vectors (self Demo.single)) <= 1)%Z /\
  IndexOutOfRange Demo.single (view_image 1 Demo.single) /\
  IndexOutOfRange Demo.single (image_similarity 1 Demo.single).
Proof.
  split; [unfold len; simpl; lia |].
  apply (@index_at_or_past_size_is_out_of_range Demo.env Demo.single 1).
  unfold len; simpl; lia.
Defined.

(** C5, refuted as stated. With status 200, a body that is no image
    and a response without content-length each raise out of
    [download_image]. *)
Lemma download_image_raises :
  status_code (Demo.serve 0 "http://img/garbage") = 200%Z /\
  fst (download_image "http://img/garbage" Demo.fresh) = Raise OSError /\
  status_code (Demo.serve 0 "http://img/nolength") = 200%Z /\
  fst (download_image "http://img/nolength" Demo.fresh) = Raise KeyError.
Proof. repeat split. Qed.

Lemma download_image_no_result_witness :
  status_code (Demo.serve 0 "http://img/missing") <> 200%Z /\
  fst (download_image "http://img/missing" Demo.fresh) = Return None /\
  fst (download_image "http://img/nolength" Demo.fresh) = Raise KeyError /\
  fst (download_image "http://img/garbage" Demo.fresh) = Raise OSError.
Proof.
  split; [vm_compute; discriminate |].
  split;
    [apply (proj1 (@download_image_no_result_only_for_status Demo.env
                     "http://img/missing" Demo.fresh));
     vm_compute; discriminate |].
  split.
  - apply (proj1 (proj2 (@download_image_no_result_only_for_status Demo.env
                           "http://img/nolength" Demo.fresh)));
      reflexivity.
  - apply (proj2 (proj2 (proj2
             (@download_image_no_result_only_for_status Demo.env
                "http://img/garbage" Demo.fresh))) "1" 1%Z);
      reflexivity.
Defined.

(** C7, refuted as stated. The best match of index 0 among the three
    vectors is index 2; the call returns the title "C" alone, and without
    titles it returns None alone: in neither case a pair with the index. *)
Lemma image_similarity_returns_no_index :
  best_idx Demo.three 0 = Return 2 /\
  fst (image_similarity 0 Demo.three) = Return (PyStr "C") /\
  fst (image_similarity 0 Demo.three)
  <> Return (PyTuple (PyInt 2) (PyStr "C")) /\
  fst (image_similarity 0
         (Demo.collection ["a"; "b"]
            [[Demo.of_Z 1; Demo.of_Z 0]; [Demo.of_Z 1; Demo.of_Z 1]] []))
  = Return PyNone.
Proof. vm_compute. repeat split. discriminate. Qed.

Lemma image_similarity_returns_title_witness :
  (0 <= 0 < len (img_vectors (self Demo.three)))%Z /\
  exists (best : nat) (o t : string),
    best_idx Demo.three 0 = Return best /\
    nth_error (img_links (self Demo.three)) (Z.to_nat 0) = Some o /\
    nth_error (img_links (self Demo.three)) best = Some t /\
    image_similarity 0 Demo.three =
      (Return match nth_error (img_titles (self Demo.three)) best with
              | Some title => PyStr title
              | None => PyNone
              end,
       shown [o; t] Demo.three) /\
    (forall a b : pyval,
        fst (image_similarity 0 Demo.three) <> Return (PyTuple a b)).
Proof.
  split; [unfold len; simpl; lia |].
  apply (@image_similarity_returns_title_or_none Demo.env Demo.three 0).
  - unfold len; simpl; lia.
  - reflexivity.
Defined.

(** C8. After a body that does not decode, and after a response
    without content-length, the exception leaves [download_image] with
    the buffer still open; after a good image the buffer is closed.
    After a 404 [buffer.close()] is not reached either: the buffer is
    gone only because the call returns and its frame is freed. *)
Theorem buffer_left_open_without_image :
  open_buffers (io (snd (download_image "http://img/garbage" Demo.fresh)))
  = 1 /\
  open_buffers (io (snd (download_image "http://img/nolength" Demo.fresh)))
  = 1 /\
  open_buffers (io (snd (download_image "http://img/a" Demo.fresh))) = 0 /\
  reaches_close (H := Demo.env) (Demo.serve 0 "http://img/missing")
  = false /\
  open_buffers (io (snd (download_image "http://img/missing" Demo.fresh)))
  = 0.
Proof. repeat split. Qed.

(** C9, refuted as stated. Five urls of which the second has a body
    that does not decode and the fourth answers 404: the rebuild raises
    at the second url and stores nothing, not three records. *)
Lemma rebuild_with_a_decode_error_stores_nothing :
  let urls :=
    ["http://img/a"; "http://img/garbage"; "http://img/b";
     "http://img/missing"; "http://img/c"] in
  let after := vectorize_links urls None true Demo.fresh in
  download_outcome (H := Demo.env) (Demo.serve 1 "http://img/garbage")
  = Raise OSError /\
  fst after = Raise OSError /\
  img_links (self (snd after)) = [] /\
  img_vectors (self (snd after)) = [] /\
  List.length (img_links (self (snd after))) <> 3.
Proof. vm_compute. repeat split. discriminate. Qed.

Lemma vectorize_links_keeps_input_order_witness :
  let urls :=
    ["http://img/a"; "http://img/missing"; "http://img/b";
     "http://img/flaky"; "http://img/c"] in
  let after :=
    vectorize_links urls (Some ["A"; "M"; "B"; "F"; "C"]) true Demo.fresh in
  let kept :=
    [Demo.embedding "http://img/a"; Demo.embedding "http://img/b";
     Demo.embedding "http://img/c"] in
  status_code (Demo.serve 1 "http://img/missing") <> 200%Z /\
  status_code (Demo.serve 3 "http://img/flaky") <> 200%Z /\
  fst after
  = Return (["http://img/a"; "http://img/b"; "http://img/c"], kept) /\
  img_links (self (snd after))
  = ["http://img/a"; "http://img/b"; "http://img/c"] /\
  img_vectors (self (snd after)) = kept /\
  img_titles (self (snd after)) = ["A"; "M"; "B"; "F"; "C"].
Proof.
  split; [vm_compute; discriminate |].
  split; [vm_compute; discriminate |].
  apply (proj2 (proj2 (proj2 (@vectorize_links_keeps_input_order Demo.env)))
           "http://img/a" "http://img/missing" "http://img/b"
           "http://img/flaky" "http://img/c"
           (Demo.embedding "http://img/a") (Demo.embedding "http://img/b")
           (Demo.embedding "http://img/c")
           (Some ["A"; "M"; "B"; "F"; "C"]) true Demo.fresh);
    vm_compute; try reflexivity; discriminate.
Defined.


(** * Further properties *)

(** ** More on the order of floats and on argmax *)


Lemma fleb_nan_false (y : float) : fleb S754_nan y = false.
Proof. reflexivity. Qed.




(** ** Python indexing below zero *)

Lemma py_getitem_negative {A : Type} (l : list A) (i : Z) :
  (- len l <= i < 0)%Z ->
  exists a,
    nth_error l (Z.to_nat (len l + i)) = Some a /\ py_getitem l i = Return a.
Proof.
  unfold len, py_getitem. intros Hi.
  destruct (Z.ltb_spec i 0); [| lia].
  destruct (Z.ltb_spec (i + Z.of_nat (List.length l)) 0); [lia |].
  destruct (Z.leb_spec (Z.of_nat (List.length l))
              (i + Z.of_nat (List.length l))); [lia |].
  simpl. rewrite (Z.add_comm i).
  destruct (nth_error l (Z.to_nat (Z.of_nat (List.length l) + i)))
    as [a |] eqn:Hnth.
  - exists a. split; reflexivity.
  - apply nth_error_None in Hnth. lia.
Qed.

Lemma py_getitem_below {A : Type} (l : list A) (i : Z) :
  (i < - len l)%Z -> py_getitem l i = Raise IndexError.
Proof.
  unfold len, py_getitem. intros Hi.
  destruct (Z.ltb_spec i 0); [| lia].
  destruct (Z.ltb_spec (i + Z.of_nat (List.length l)) 0); [| lia].
  reflexivity.
Qed.

Lemma py_getitem_nonempty {A : Type} (l : list A) (i : Z) (a : A) :
  py_getitem l i = Return a -> l <> [].
Proof.
  intros Hget ->. unfold py_getitem in Hget. simpl in Hget.
  destruct (i <? 0)%Z eqn:Hi.
  - rewrite Z.add_0_r, Hi in Hget. discriminate.
  - rewrite Hi in Hget. simpl in Hget.
    destruct (Z.leb_spec 0 i); [discriminate |].
    apply Z.ltb_ge in Hi. lia.
Qed.

(** ** The best match, member by member *)

Section MoreSimilarity.
Context `{Externals}.

Lemma similarities_nonempty (test_vct : vector) (idx : Z) (i : nat)
    (vectors : list vector) :
  vectors <> [] -> similarities test_vct idx i vectors <> [].
Proof. destruct vectors; [congruence | discriminate]. Qed.

(** Below zero no counter of the loop equals the index: every member is
    scored, the reference too. *)
Lemma similarities_negative (test_vct : vector) (idx : Z)
    (vectors : list vector) :
  (idx < 0)%Z ->
  forall i : nat,
    similarities test_vct idx i vectors
    = map (_cosine_similarity test_vct) vectors.
Proof.
  intros Hidx. induction vectors as [| vct rest IH]; intros i; simpl;
    [reflexivity |].
  destruct (Z.eqb_spec (Z.of_nat i) idx); [lia |].
  simpl. rewrite IH. reflexivity.
Qed.

(** A call of [image_similarity] that gets past the two guards and finds
    its reference: what it shows and returns. *)
Lemma image_similarity_run_at (st : state) (idx : Z) (o : string)
    (test_vct : vector) :
  (idx <= len (img_vectors (self st)) - 1)%Z ->
  py_getitem (img_links (self st)) idx = Return o ->
  py_getitem (img_vectors (self st)) idx = Return test_vct ->
  List.length (img_links (self st))
  = List.length (img_vectors (self st)) ->
  exists (best : nat) (t : string),
    argmax (similarities test_vct idx 0 (img_vectors (self st)))
    = Return best /\
    nth_error (img_links (self st)) best = Some t /\
    image_similarity idx st =
      (Return match nth_error (img_titles (self st)) best with
              | Some title => PyStr title
              | None => PyNone
              end,
       shown [o; t] st).
Proof.
  intros Hidx Hgeto Hgetv Hlinks.
  destruct (@argmax_spec
              (similarities test_vct idx 0 (img_vectors (self st))))
    as (best & m & Hbest & Hm & _).
  { apply similarities_nonempty. eapply py_getitem_nonempty; eassumption. }
  assert (Hlt : best < List.length (img_vectors (self st))).
  { rewrite <- (similarities_length test_vct idx (img_vectors (self st)) 0).
    apply nth_error_Some. congruence. }
  destruct (nth_error (img_links (self st)) best) as [t |] eqn:Ht;
    [| apply nth_error_None in Ht; lia].
  exists best, t. split; [assumption |]. split; [exact Ht |].
  unfold image_similarity, bind, get_self, lift, shown, display, update_io,
    ret.
  assert (Hlen : (len (img_vectors (self st)) <? 0)%Z = false)
    by (apply Z.ltb_ge; unfold len; lia).
  assert (Hgt : (idx >? len (img_vectors (self st)) - 1)%Z = false)
    by (rewrite Z.gtb_ltb; apply Z.ltb_ge; lia).
  rewrite Hlen, Hgt, Hgeto, Hgetv, Hbest.
  rewrite (py_getitem_nonneg _ _ Ht). simpl.
  rewrite Z.gtb_ltb.
  destruct (nth_error (img_titles (self st)) best) as [title |] eqn:Htitle.
  - assert (best < List.length (img_titles (self st)))
      by (apply nth_error_Some; congruence).
    destruct (Z.ltb_spec (Z.of_nat best) (len (img_titles (self st))));
      [| unfold len in *; lia].
    rewrite (py_getitem_nonneg _ _ Htitle). reflexivity.
  - apply nth_error_None in Htitle.
    destruct (Z.ltb_spec (Z.of_nat best) (len (img_titles (self st))));
      [unfold len in *; lia | reflexivity].
Qed.



End MoreSimilarity.

(** ** Indices below zero, and what the queries leave alone *)

Section MoreQueries.
Context `{Externals}.

(** X4. An index from -size to -1 passes both guards of
    [image_similarity] and picks the member counted from the end; no
    score is forced to 0.0 then, the reference is scored against itself
    like any other member. *)
Theorem negative_index_has_no_self_exclusion (st : state) (idx : Z) :
  (- len (img_vectors (self st)) <= idx < 0)%Z ->
  List.length (img_links (self st))
  = List.length (img_vectors (self st)) ->
  exists (test_vct : vector) (best : nat) (o t : string),
    nth_error (img_vectors (self st))
      (Z.to_nat (len (img_vectors (self st)) + idx)) = Some test_vct /\
    nth_error (img_links (self st))
      (Z.to_nat (len (img_vectors (self st)) + idx)) = Some o /\
    argmax (map (_cosine_similarity test_vct) (img_vectors (self st)))
    = Return best /\
    nth_error (img_links (self st)) best = Some t /\
    image_similarity idx st =
      (Return match nth_error (img_titles (self st)) best with
              | Some title => PyStr title
              | None => PyNone
              end,
       shown [o; t] st).
Proof.
  intros Hidx Hlinks.
  destruct (py_getitem_negative (img_vectors (self st)) Hidx)
    as (test_vct & Hvct & Hgetv).
  assert (Hidx' : (- len (img_links (self st)) <= idx < 0)%Z)
    by (unfold len in *; lia).
  destruct (py_getitem_negative (img_links (self st)) Hidx')
    as (o & Ho & Hgeto).
  assert (Hle : (idx <= len (img_vectors (self st)) - 1)%Z)
    by (unfold len in *; lia).
  destruct (image_similarity_run_at st Hle Hgeto Hgetv Hlinks)
    as (best & t & Hbest & Ht & Hrun).
  rewrite similarities_negative in Hbest by lia.
  exists test_vct, best, o, t. repeat split; try assumption.
  unfold len in *. rewrite <- Hlinks. exact Ho.
Qed.

(** X5. [view_image] with an index from -size up to size-1 shows the
    location at that index, counted from the end when negative, prints
    nothing and returns None. *)
Theorem view_image_shows_the_location (st : state) (idx : Z) :
  (- len (img_links (self st)) <= idx < len (img_links (self st)))%Z ->
  (idx <= len (img_vectors (self st)) - 1)%Z ->
  exists link : string,
    nth_error (img_links (self st))
      (Z.to_nat (if (idx <? 0)%Z
                 then len (img_links (self st)) + idx
                 else idx)) = Some link /\
    view_image idx st = (Return PyNone, shown [link] st).
Proof.
  intros Hidx Hle.
  assert (Hgt : (idx >? len (img_vectors (self st)) - 1)%Z = false)
    by (rewrite Z.gtb_ltb; apply Z.ltb_ge; lia).
  unfold view_image, bind, get_self, lift, shown, display, update_io, ret.
  rewrite Hgt.
  destruct (Z.ltb_spec idx 0) as [Hneg | Hpos].
  - destruct (@py_getitem_negative _ (img_links (self st)) idx)
      as (link & Hnth & ->); [lia |].
    exists link. split; [assumption | reflexivity].
  - destruct (@py_getitem_in_range _ (img_links (self st)) idx)
      as (link & Hnth & ->); [lia |].
    exists link. split; [assumption | reflexivity].
Qed.

(** X6. An index below -size is caught by no guard: [view_image] and
    [image_similarity] both raise IndexError, having printed and shown
    nothing. *)
Theorem index_below_minus_size_raises (st : state) (idx : Z) :
  (idx < - len (img_links (self st)))%Z ->
  view_image idx st = (Raise IndexError, st) /\
  image_similarity idx st = (Raise IndexError, st).
Proof.
  intros Hidx.
  assert (Hlen : (len (img_vectors (self st)) <? 0)%Z = false)
    by (apply Z.ltb_ge; unfold len; lia).
  assert (Hgt : (idx >? len (img_vectors (self st)) - 1)%Z = false)
    by (rewrite Z.gtb_ltb; apply Z.ltb_ge; unfold len in *; lia).
  unfold view_image, image_similarity, bind, get_self, lift.
  rewrite Hlen, Hgt, (py_getitem_below _ Hidx). split; reflexivity.
Qed.

(** X7. [view_image] and [image_similarity] only read the collection:
    whatever the index and however the call ends, the attributes are
    the same afterwards, and no request was made, no buffer opened and
    no pause taken. *)
Theorem queries_leave_the_collection_alone (st : state) (idx : Z) :
  let same (after : state) :=
    self after = self st /\
    requests (io after) = requests (io st) /\
    open_buffers (io after) = open_buffers (io st) /\
    naps (io after) = naps (io st) in
  same (snd (view_image idx st)) /\ same (snd (image_similarity idx st)).
Proof.
  unfold view_image, image_similarity, bind, get_self, lift, print, display,
    update_io, ret.
  split;
    repeat match goal with
      | |- context [match ?r with Return _ => _ | Raise _ => _ end] =>
          destruct r; simpl
      | |- context [if ?b then _ else _] => destruct b; simpl
      end;
    repeat split.
Qed.

(** Without titles, the comparison has no title to return. *)
Lemma image_similarity_without_titles (st : state) (idx : Z)
    (title : string) :
  img_titles (self st) = [] ->
  fst (image_similarity idx st) <> Return (PyStr title).
Proof.
  intros Htitles.
  unfold image_similarity, bind, get_self, lift, print, display, update_io,
    ret.
  rewrite Htitles.
  repeat match goal with
    | |- context [(len (@nil string) >? Z.of_nat ?n)%Z] =>
        replace (len (@nil string) >? Z.of_nat n)%Z with false
          by (symmetry; rewrite Z.gtb_ltb; apply Z.ltb_ge;
              unfold len; simpl; lia)
    | |- context [match ?r with Return _ => _ | Raise _ => _ end] =>
        destruct r; simpl
    | |- context [if ?b then _ else _] => destruct b; simpl
    end;
  discriminate.
Qed.

(** X8. After a rebuild without a title list, as the notebook calls it,
    [image_similarity] never returns a title, whatever the index. *)
Theorem rebuild_without_titles_gives_no_title (urls : list string)
    (debug : bool) (st : state) (idx : Z) (title : string) :
  fst (image_similarity idx (snd (vectorize_links urls None debug st)))
  <> Return (PyStr title).
Proof.
  apply image_similarity_without_titles.
  destruct (vectorize_links_run urls None debug st) as (w & ->).
  reflexivity.
Qed.
End MoreQueries.

(** ** What a rebuild does to the world *)

Section RebuildAccounting.
Context `{Externals}.

Lemma vectorize_run_exact (url : string) (st : state) :
  vectorize url st =
    (vectorize_outcome (model (self st)) (preprocess (self st))
       (requests_get (requests (io st)) url),
     {| self := self st;
        io := after_fetch (requests_get (requests (io st)) url) (io st) |}).
Proof.
  unfold vectorize, vectorize_outcome, bind.
  rewrite download_image_run.
  destruct (download_outcome _) as [[img_arr |] | e]; simpl;
    try reflexivity.
  unfold lift, ret. destruct (py_getitem _ 0); reflexivity.
Qed.

Lemma vectorize_loop_world (urls : list string) (debug : bool) :
  forall (vects : list vector) (goods : list string) (st : state),
    let outs :=
      outcomes (model (self st)) (preprocess (self st))
        (requests (io st)) urls in
    let w := io (snd (vectorize_loop urls debug vects goods st)) in
    requests w = requests (io st) + attempted outs /\
    naps w = naps (io st) + attempted outs /\
    displayed w = displayed (io st) /\
    open_buffers w =
      open_buffers (io st)
      + left_open (model (self st)) (preprocess (self st))
          (requests (io st)) urls /\
    stdout w =
      stdout (io st)
      ++ (if debug then map error_line (dropped urls outs) else []).
Proof.
  induction urls as [| url rest IH]; intros vects goods st; cbv zeta.
  - simpl. rewrite !Nat.add_0_r. destruct debug; simpl; rewrite app_nil_r;
      repeat split.
  - remember (vectorize_loop (url :: rest) debug vects goods st) as run
      eqn:Hrun.
    simpl in Hrun. unfold bind at 1 in Hrun.
    unfold time_sleep, update_io at 1 in Hrun.
    unfold bind at 1 in Hrun. rewrite vectorize_run_exact in Hrun.
    simpl in Hrun. simpl outcomes. simpl left_open.
    revert Hrun.
    destruct (vectorize_outcome _ _ _) as [[v |] | e]; intros Hrun;
      simpl attempted; simpl dropped.
    + specialize (IH (vects ++ [v]) (goods ++ [url])). rewrite Hrun.
      match goal with
      | |- context [vectorize_loop rest debug _ _ ?st1] =>
          specialize (IH st1)
      end.
      cbv zeta in IH. simpl in IH. destruct IH as (Hr & Hn & Hd & Hb & Hs).
      rewrite Hr, Hn, Hd, Hb, Hs. repeat split; try lia.
      destruct (leaves_open _); lia.
    + unfold bind at 1 in Hrun.
      destruct debug; unfold print, update_io, ret in Hrun; simpl in Hrun;
        specialize (IH vects goods); rewrite Hrun;
        match goal with
        | |- context [vectorize_loop rest _ _ _ ?st1] =>
            specialize (IH st1)
        end;
        cbv zeta in IH; simpl in IH; destruct IH as (Hr & Hn & Hd & Hb & Hs);
        rewrite Hr, Hn, Hd, Hb, Hs; repeat split; try lia;
        try (destruct (leaves_open _); lia).
      simpl. rewrite <- app_assoc. reflexivity.
    + rewrite Hrun. simpl. repeat split; try lia.
      * destruct (leaves_open _); lia.
      * destruct debug; rewrite app_nil_r; reflexivity.
Qed.

Lemma vectorize_links_world (urls : list string)
    (titles : option (list string)) (debug : bool) (st : state) :
  let outs :=
    outcomes (model (self st)) (preprocess (self st))
      (requests (io st)) urls in
  let w := io (snd (vectorize_links urls titles debug st)) in
  requests w = requests (io st) + attempted outs /\
  naps w = naps (io st) + attempted outs /\
  displayed w = displayed (io st) /\
  open_buffers w =
    open_buffers (io st)
    + left_open (model (self st)) (preprocess (self st))
        (requests (io st)) urls /\
  stdout w =
    stdout (io st)
    ++ (if debug then map error_line (dropped urls outs) else []).
Proof.
  unfold vectorize_links, bind, set_img_links, set_img_vectors,
    set_img_titles, update_self, ret.
  destruct titles as [l |]; simpl;
    match goal with
    | |- context [vectorize_loop urls debug [] [] ?st1] =>
        pose proof (vectorize_loop_world urls debug [] [] st1) as Hloop;
        destruct (vectorize_loop urls debug [] [] st1)
          as [[[vects goods] | e] st2]
    end;
    simpl in *; exact Hloop.
Qed.

Lemma attempted_all (outs : list (result (option vector))) :
  attempted outs <= List.length outs /\
  (first_raise outs = None -> attempted outs = List.length outs).
Proof.
  induction outs as [| [o | e] outs [IHle IHeq]]; simpl.
  - split; [lia | reflexivity].
  - split; [lia | intros Hnone; rewrite IHeq by assumption; reflexivity].
  - split; [lia | discriminate].
Qed.

Lemma kept_or_dropped (urls : list string) :
  forall outs : list (result (option vector)),
    List.length outs = List.length urls ->
    first_raise outs = None ->
    List.length (successes urls outs) + List.length (dropped urls outs)
    = List.length urls.
Proof.
  induction urls as [| url rest IH]; intros [| o outs] Hlen Hnone;
    simpl in *; try discriminate; try reflexivity.
  destruct o as [[v |] | e]; simpl; try discriminate;
    rewrite <- (IH outs) by (try lia; assumption); lia.
Qed.

Lemma left_open_bound (mdl : list array -> list vector)
    (pre : list array -> list array) (urls : list string) :
  forall t : nat,
    left_open mdl pre t urls <= 1 /\
    (first_raise (outcomes mdl pre t urls) = None ->
     left_open mdl pre t urls = 0).
Proof.
  induction urls as [| url rest IH]; intros t; simpl; [split; auto |].
  destruct (IH (S t)) as [IHle IHnone].
  unfold vectorize_outcome, leaves_open.
  destruct (download_outcome (requests_get t url)) as [[img_arr |] | e];
    simpl.
  - destruct (py_getitem _ 0); simpl; split; auto; discriminate.
  - split; auto.
  - split; [lia | discriminate].
Qed.

(** X9. A rebuild makes one request and takes one pause for every url
    it tries, and displays nothing; it tries every url of the list
    unless a [vectorize] raises, and then stops at that url. *)
Theorem rebuild_makes_one_request_per_url (urls : list string)
    (titles : option (list string)) (debug : bool) (st : state) :
  let outs :=
    outcomes (model (self st)) (preprocess (self st))
      (requests (io st)) urls in
  let w := io (snd (vectorize_links urls titles debug st)) in
  requests w = requests (io st) + attempted outs /\
  naps w = naps (io st) + attempted outs /\
  displayed w = displayed (io st) /\
  attempted outs <= List.length urls /\
  (first_raise outs = None -> attempted outs = List.length urls).
Proof.
  intros outs w.
  destruct (vectorize_links_world urls titles debug st)
    as (Hr & Hn & Hd & _ & _).
  destruct (attempted_all outs) as [Hle Heq].
  unfold outs in Hle, Heq. rewrite outcomes_length in Hle, Heq.
  repeat split; assumption.
Qed.

(** X10. With [debug] a rebuild prints one line "error: url" for every
    url that gave no result, in input order, and nothing else; without
    [debug] it prints nothing.  When nothing raises, every url is either
    kept or reported. *)
Theorem rebuild_reports_the_dropped_urls (urls : list string)
    (titles : option (list string)) (st : state) :
  let outs :=
    outcomes (model (self st)) (preprocess (self st))
      (requests (io st)) urls in
  stdout (io (snd (vectorize_links urls titles true st)))
  = stdout (io st) ++ map error_line (dropped urls outs) /\
  stdout (io (snd (vectorize_links urls titles false st)))
  = stdout (io st) /\
  (first_raise outs = None ->
   List.length (successes urls outs) + List.length (dropped urls outs)
   = List.length urls).
Proof.
  intros outs.
  destruct (vectorize_links_world urls titles true st)
    as (_ & _ & _ & _ & Htrue).
  destruct (vectorize_links_world urls titles false st)
    as (_ & _ & _ & _ & Hfalse).
  simpl in Htrue, Hfalse. rewrite app_nil_r in Hfalse.
  repeat split; try assumption.
  apply kept_or_dropped. apply outcomes_length.
Qed.

(** X11. A rebuild that returns leaves no buffer open, the dropped
    urls' buffers having gone with the frames of their calls.  A rebuild
    that raises leaves at most one buffer open, the one of the call that
    raised. *)
Theorem rebuild_leaves_at_most_one_buffer_open
    (urls : list string) (titles : option (list string)) (debug : bool)
    (st : state) :
  let outs :=
    outcomes (model (self st)) (preprocess (self st))
      (requests (io st)) urls in
  let after := io (snd (vectorize_links urls titles debug st)) in
  (first_raise outs = None -> open_buffers after = open_buffers (io st)) /\
  open_buffers (io st) <= open_buffers after <= S (open_buffers (io st)).
Proof.
  intros outs after. subst after.
  destruct (vectorize_links_world urls titles debug st)
    as (_ & _ & _ & Hb & _).
  destruct (left_open_bound (model (self st)) (preprocess (self st)) urls
              (requests (io st))) as [Hle Hnone].
  rewrite Hb. split; [| lia].
  intros Hraise. rewrite Hnone by assumption. lia.
Qed.
End RebuildAccounting.

(** ** What a rebuild keeps of the past, and of its input *)

Section RebuildState.
Context `{Externals}.

Lemma world_eq (w1 w2 : world) :
  requests w1 = requests w2 ->
  open_buffers w1 = open_buffers w2 ->
  stdout w1 = stdout w2 ->
  displayed w1 = displayed w2 ->
  naps w1 = naps w2 ->
  w1 = w2.
Proof. destruct w1, w2; simpl; intros; subst; reflexivity. Qed.

(** X12. A rebuild starts from nothing: two objects with the same model
    and preprocessing, in the same world, end in the same state and
    return the same value, whatever links, vectors and titles each of
    them held before. *)
Theorem rebuild_forgets_the_previous_collection (urls : list string)
    (titles : option (list string)) (debug : bool) (st1 st2 : state) :
  model (self st1) = model (self st2) ->
  preprocess (self st1) = preprocess (self st2) ->
  io st1 = io st2 ->
  vectorize_links urls titles debug st1
  = vectorize_links urls titles debug st2.
Proof.
  intros Hmodel Hpre Hio.
  pose proof (vectorize_links_world urls titles debug st1) as Hw1.
  pose proof (vectorize_links_world urls titles debug st2) as Hw2.
  destruct (vectorize_links_run urls titles debug st1) as (w1 & Hrun1).
  destruct (vectorize_links_run urls titles debug st2) as (w2 & Hrun2).
  rewrite Hrun1 in Hw1 |- *. rewrite Hrun2 in Hw2 |- *.
  cbv zeta in Hw1, Hw2. simpl in Hw1, Hw2.
  rewrite Hmodel, Hpre, Hio in *.
  destruct Hw1 as (Hr1 & Hn1 & Hd1 & Hb1 & Hs1).
  destruct Hw2 as (Hr2 & Hn2 & Hd2 & Hb2 & Hs2).
  assert (w1 = w2) by (apply world_eq; congruence).
  subst w2. reflexivity.
Qed.

(** X13. What [vectorize_links] returns is what it stores: the two
    lists of its result are the stored locations and vectors.  When it
    raises instead, the stored locations and vectors are empty, the old
    ones being gone; the titles are replaced in both cases, and the model
    and the preprocessing are never touched. *)
Theorem rebuild_returns_what_it_stores (urls : list string)
    (titles : option (list string)) (debug : bool) (st : state) :
  let after := vectorize_links urls titles debug st in
  match fst after with
  | Return (goods, vects) =>
      img_links (self (snd after)) = goods /\
      img_vectors (self (snd after)) = vects
  | Raise _ =>
      img_links (self (snd after)) = [] /\
      img_vectors (self (snd after)) = []
  end /\
  img_titles (self (snd after))
  = match titles with
    | Some l => l
    | None => []
    end /\
  model (self (snd after)) = model (self st) /\
  preprocess (self (snd after)) = preprocess (self st).
Proof.
  intros after. subst after.
  destruct (vectorize_links_run urls titles debug st) as (w & ->).
  simpl. destruct (first_raise _); repeat split.
Qed.

Lemma all_succeed (urls : list string) :
  forall outs : list (result (option vector)),
    List.length outs = List.length urls ->
    Forall (fun o => exists v, o = Return (Some v)) outs ->
    first_raise outs = None /\
    map fst (successes urls outs) = urls /\
    List.length (successes urls outs) = List.length urls.
Proof.
  induction urls as [| url rest IH]; intros [| o outs] Hlen Hall;
    simpl in *; try discriminate; [repeat split |].
  inversion Hall as [| o' outs' [v ->] Hrest]; subst.
  destruct (IH outs) as (Hnone & Hfst & Hlength); [lia | assumption |].
  simpl. rewrite Hfst, Hlength. repeat split. assumption.
Qed.

Lemma all_succeed_vectors (urls : list string) :
  forall outs : list (result (option vector)),
    List.length outs = List.length urls ->
    Forall (fun o => exists v, o = Return (Some v)) outs ->
    map (fun v => Return (Some v)) (map snd (successes urls outs)) = outs.
Proof.
  induction urls as [| url rest IH]; intros [| o outs] Hlen Hall;
    simpl in *; try discriminate; [reflexivity |].
  inversion Hall as [| o' outs' [v ->] Hrest]; subst.
  simpl. rewrite IH by (try lia; assumption). reflexivity.
Qed.

Lemma outcomes_nth (mdl : list array -> list vector)
    (pre : list array -> list array) (urls : list string) :
  forall t i : nat,
    nth_error (outcomes mdl pre t urls) i =
      match nth_error urls i with
      | Some url => Some (vectorize_outcome mdl pre (requests_get (t + i) url))
      | None => None
      end.
Proof.
  induction urls as [| url rest IH]; intros t [| i]; simpl;
    try reflexivity.
  - rewrite Nat.add_0_r. reflexivity.
  - rewrite IH. replace (S t + i) with (t + S i) by lia. reflexivity.
Qed.

(** X14. When every url gives a vector, nothing is dropped and the
    three stored lists line up with the input: the stored locations are
    the input urls, the stored titles the given titles, and the stored
    vectors, in order, what [vectorize] returned for each url.  So at
    every index with an input url and an input title, the stored
    location is that url, the stored title is that title and the stored
    vector is the one [vectorize] returned for that url. *)
Theorem rebuild_without_failure_keeps_titles_aligned
    (urls titles : list string) (debug : bool) (st : state) :
  let outs :=
    outcomes (model (self st)) (preprocess (self st))
      (requests (io st)) urls in
  let after := self (snd (vectorize_links urls (Some titles) debug st)) in
  Forall (fun o => exists v, o = Return (Some v)) outs ->
  img_links after = urls /\
  img_titles after = titles /\
  map (fun v => Return (Some v)) (img_vectors after) = outs /\
  (forall (i : nat) (url title : string),
      nth_error urls i = Some url ->
      nth_error titles i = Some title ->
      exists v : vector,
        nth_error (img_links after) i = Some url /\
        nth_error (img_titles after) i = Some title /\
        nth_error (img_vectors after) i = Some v /\
        vectorize_outcome (model (self st)) (preprocess (self st))
          (requests_get (requests (io st) + i) url) = Return (Some v)).
Proof.
  intros outs after Hall. subst after.
  destruct (vectorize_links_run urls (Some titles) debug st) as (w & ->).
  destruct (all_succeed urls (outcomes_length _ _ urls _) Hall)
    as (Hnone & Hfst & Hlength).
  pose proof (all_succeed_vectors urls (outcomes_length _ _ urls _) Hall)
    as Hvects.
  fold outs in Hnone, Hfst, Hlength, Hvects |- *.
  simpl. rewrite Hnone, Hfst.
  split; [reflexivity |]. split; [reflexivity |]. split; [exact Hvects |].
  intros i url title Hurl Htitle.
  assert (Hout : nth_error outs i
                 = Some (vectorize_outcome (model (self st))
                           (preprocess (self st))
                           (requests_get (requests (io st) + i) url)))
    by (unfold outs; rewrite outcomes_nth, Hurl; reflexivity).
  rewrite <- Hvects, nth_error_map in Hout.
  destruct (nth_error (map snd (successes urls outs)) i) as [v |] eqn:Hv;
    [| discriminate].
  simpl in Hout. injection Hout as Hout.
  exists v. repeat split; auto.
Qed.

(** X15. After a rebuild that returned, the stored locations can be
    looked at one by one: [view_image] with the position of a kept url
    shows that url, and [image_similarity] with it returns without
    raising. *)
Theorem rebuild_then_query (urls : list string)
    (titles : option (list string)) (debug : bool) (st : state)
    (i : nat) (url : string) :
  let outs :=
    outcomes (model (self st)) (preprocess (self st))
      (requests (io st)) urls in
  let after := snd (vectorize_links urls titles debug st) in
  first_raise outs = None ->
  nth_error (map fst (successes urls outs)) i = Some url ->
  view_image (Z.of_nat i) after = (Return PyNone, shown [url] after) /\
  exists (out : pyval) (t : string),
    image_similarity (Z.of_nat i) after
    = (Return out, shown [url; t] after).
Proof.
  intros outs after Hnone Hurl. subst after.
  destruct (vectorize_links_run urls titles debug st) as (w & Hrun).
  fold outs in Hrun. rewrite Hnone in Hrun. rewrite Hrun. simpl.
  set (after := {| self := _; io := w |}).
  assert (Hlinks : img_links (self after) = map fst (successes urls outs))
    by reflexivity.
  assert (Hpar : List.length (img_links (self after))
                 = List.length (img_vectors (self after)))
    by (simpl; rewrite !length_map; reflexivity).
  assert (Hi : i < List.length (img_links (self after)))
    by (rewrite Hlinks; apply nth_error_Some; congruence).
  split.
  - assert (Hgt : (Z.of_nat i >? len (img_vectors (self after)) - 1)%Z
                  = false)
      by (rewrite Z.gtb_ltb; apply Z.ltb_ge; unfold len; lia).
    assert (Hnth : nth_error (img_links (self after)) i = Some url)
      by (rewrite Hlinks; exact Hurl).
    unfold view_image, bind, get_self, lift, shown, display, update_io, ret.
    rewrite Hgt, (py_getitem_nonneg _ _ Hnth). reflexivity.
  - destruct (@image_similarity_run _ after (Z.of_nat i))
      as (best & o & t & _ & _ & Ho & _ & Hsim).
    + unfold len. lia.
    + exact Hpar.
    + rewrite Nat2Z.id, Hlinks, Hurl in Ho. injection Ho as <-.
      eexists. exists t. exact Hsim.
Qed.
End RebuildState.

(** ** One fetch, in full *)

Section MoreFetching.
Context `{Externals}.

(** X16. With status 200, a content-length that is a number and a body
    that decodes, [download_image] returns the pixel array of the image
    decoded from all the chunks put together in order; it has made one
    request and closed its buffer.  The number in content-length is not
    compared with anything. *)
Theorem download_image_decodes_the_whole_body (url : string) (st : state)
    (s : string) (n : Z) (img : image) :
  let r := requests_get (requests (io st)) url in
  status_code r = 200%Z ->
  headers r "content-length" = Some s ->
  int s = Some n ->
  load_img (List.concat (iter_content r)) = Some img ->
  download_image url st =
    (Return (Some (img_to_array img)),
     {| self := self st;
        io := {| requests := S (requests (io st));
                 open_buffers := open_buffers (io st);
                 stdout := stdout (io st);
                 displayed := displayed (io st);
                 naps := naps (io st) |} |}).
Proof.
  intros r Hstatus Hlength Hint Himg. rewrite download_image_run. fold r.
  unfold leaves_open, download_outcome.
  rewrite Hstatus, Hlength, Hint, Himg. reflexivity.
Qed.

(** X17. No result means a bad status, and nothing else:
    [download_image] and [vectorize] return None exactly when the status
    code is not 200. *)
Theorem no_result_exactly_for_bad_status (url : string) (st : state) :
  let r := requests_get (requests (io st)) url in
  (fst (download_image url st) = Return None <-> status_code r <> 200%Z) /\
  (fst (vectorize url st) = Return None <-> status_code r <> 200%Z).
Proof.
  intros r. rewrite download_image_run, vectorize_run_exact. fold r. simpl.
  unfold vectorize_outcome, download_outcome.
  destruct (Z.eqb_spec (status_code r) 200) as [Heq | Hne].
  - split; (split; [| contradiction]);
      destruct (headers r "content-length"); try discriminate;
      destruct (int _); try discriminate;
      destruct (load_img _); try discriminate;
      destruct (py_getitem _ 0); discriminate.
  - split; split; auto.
Qed.

(** X18. [vectorize] does not touch the object and makes exactly one
    request, however it ends; it prints nothing, shows nothing and takes
    no pause. *)
Theorem vectorize_makes_one_request (url : string) (st : state) :
  let after := snd (vectorize url st) in
  self after = self st /\
  requests (io after) = S (requests (io st)) /\
  stdout (io after) = stdout (io st) /\
  displayed (io after) = displayed (io st) /\
  naps (io after) = naps (io st).
Proof.
  intros after. subst after. rewrite vectorize_run_exact. repeat split.
Qed.
End MoreFetching.

(** ** The further properties at work in the demo environment *)




Lemma negative_index_witness :
  (- len (img_vectors (self Demo.three)) <= -1 < 0)%Z /\
  exists (test_vct : vector) (best : nat) (o t : string),
    nth_error (img_vectors (self Demo.three))
      (Z.to_nat (len (img_vectors (self Demo.three)) + -1))
    = Some test_vct /\
    nth_error (img_links (self Demo.three))
      (Z.to_nat (len (img_vectors (self Demo.three)) + -1)) = Some o /\
    argmax (map (_cosine_similarity test_vct) (img_vectors (self Demo.three)))
    = Return best /\
    nth_error (img_links (self Demo.three)) best = Some t /\
    image_similarity (-1) Demo.three =
      (Return match nth_error (img_titles (self Demo.three)) best with
              | Some title => PyStr title
              | None => PyNone
              end,
       shown [o; t] Demo.three).
Proof.
  split; [unfold len; simpl; lia |].
  apply (@negative_index_has_no_self_exclusion Demo.env Demo.three (-1)).
  - unfold len; simpl; lia.
  - reflexivity.
Defined.

(** The last of the three vectors, asked for as -1, is its own best
    match. *)
Lemma last_member_matches_itself :
  image_similarity (-1) Demo.three
  = (Return (PyStr "C"), shown ["c"; "c"] Demo.three).
Proof. reflexivity. Qed.

Lemma view_image_witness :
  (- len (img_links (self Demo.three)) <= -1
   < len (img_links (self Demo.three)))%Z /\
  exists link : string,
    nth_error (img_links (self Demo.three))
      (Z.to_nat (if (-1 <? 0)%Z
                 then len (img_links (self Demo.three)) + -1
                 else -1)) = Some link /\
    view_image (-1) Demo.three = (Return PyNone, shown [link] Demo.three).
Proof.
  split; [unfold len; simpl; lia |].
  apply (@view_image_shows_the_location Demo.env Demo.three (-1));
    unfold len; simpl; lia.
Defined.

Lemma index_below_minus_size_witness :
  (-2 < - len (img_links (self Demo.single)))%Z /\
  view_image (-2) Demo.single = (Raise IndexError, Demo.single) /\
  image_similarity (-2) Demo.single = (Raise IndexError, Demo.single).
Proof.
  split; [unfold len; simpl; lia |].
  apply (@index_below_minus_size_raises Demo.env Demo.single (-2)).
  unfold len; simpl; lia.
Defined.

Lemma rebuild_buffers_witness :
  open_buffers
    (io (snd (vectorize_links
                ["http://img/a"; "http://img/missing"; "http://img/b"]
                None true Demo.fresh)))
  = open_buffers (io Demo.fresh) /\
  open_buffers
    (io (snd (vectorize_links
                ["http://img/a"; "http://img/garbage"; "http://img/b"]
                None true Demo.fresh)))
  <= S (open_buffers (io Demo.fresh)).
Proof.
  split.
  - apply (proj1 (@rebuild_leaves_at_most_one_buffer_open Demo.env
                    ["http://img/a"; "http://img/missing"; "http://img/b"]
                    None true Demo.fresh)).
    vm_compute; reflexivity.
  - apply (proj2 (@rebuild_leaves_at_most_one_buffer_open Demo.env
                    ["http://img/a"; "http://img/garbage"; "http://img/b"]
                    None true Demo.fresh)).
Defined.

(** A rebuild stopped by a body that does not decode: one buffer stays
    open, two requests were made, and the third url was never tried. *)
Lemma rebuild_stopped_by_a_decode_error :
  let after :=
    vectorize_links ["http://img/a"; "http://img/garbage"; "http://img/b"]
      None true Demo.fresh in
  fst after = Raise OSError /\
  open_buffers (io (snd after)) = 1 /\
  requests (io (snd after)) = 2.
Proof. vm_compute. repeat split. Qed.

Lemma rebuild_forgets_witness :
  img_links (self Cases.stale) = ["old"] /\
  vectorize_links ["http://img/a"; "http://img/missing"] None true
    Cases.stale
  = vectorize_links ["http://img/a"; "http://img/missing"] None true
      Demo.fresh.
Proof.
  split; [reflexivity |].
  apply (@rebuild_forgets_the_previous_collection Demo.env); reflexivity.
Defined.

Lemma rebuild_aligned_witness :
  let after :=
    self (snd (vectorize_links ["http://img/a"; "http://img/b"]
                 (Some ["A"; "B"]) true Demo.fresh)) in
  img_links after = ["http://img/a"; "http://img/b"] /\
  img_titles after = ["A"; "B"] /\
  img_vectors after
  = [Demo.embedding "http://img/a"; Demo.embedding "http://img/b"] /\
  exists v : vector,
    nth_error (img_links after) 1 = Some "http://img/b" /\
    nth_error (img_titles after) 1 = Some "B" /\
    nth_error (img_vectors after) 1 = Some v /\
    vectorize_outcome (model (self Demo.fresh))
      (preprocess (self Demo.fresh))
      (Demo.serve (requests (io Demo.fresh) + 1) "http://img/b")
    = Return (Some v).
Proof.
  assert (Hall :
    Forall (fun o => exists v, o = Return (Some v))
      (outcomes (model (self Demo.fresh)) (preprocess (self Demo.fresh))
         (requests (io Demo.fresh)) ["http://img/a"; "http://img/b"])).
  { repeat (constructor; [eexists; vm_compute; reflexivity |]).
    constructor. }
  destruct (@rebuild_without_failure_keeps_titles_aligned Demo.env
              ["http://img/a"; "http://img/b"] ["A"; "B"] true Demo.fresh
              Hall) as (Hlinks & Htitles & _ & Hat).
  split; [exact Hlinks |]. split; [exact Htitles |].
  split; [vm_compute; reflexivity |].
  apply (Hat 1 "http://img/b" "B"); reflexivity.
Defined.

Lemma rebuild_then_query_witness :
  let after :=
    snd (vectorize_links
           ["http://img/a"; "http://img/missing"; "http://img/b"] None true
           Demo.fresh) in
  view_image 1 after = (Return PyNone, shown ["http://img/b"] after) /\
  exists (out : pyval) (t : string),
    image_similarity 1 after = (Return out, shown ["http://img/b"; t] after).
Proof.
  apply (@rebuild_then_query Demo.env
           ["http://img/a"; "http://img/missing"; "http://img/b"] None true
           Demo.fresh 1 "http://img/b");
    vm_compute; reflexivity.
Defined.

Lemma download_image_decodes_witness :
  status_code (Demo.serve 0 "http://img/ab") = 200%Z /\
  download_image "http://img/ab" Demo.fresh =
    (Return (Some (list_byte_of_string "http://img/ab")),
     {| self := self Demo.fresh;
        io := {| requests := 1; open_buffers := 0; stdout := [];
                 displayed := []; naps := 0 |} |}).
Proof.
  split; [reflexivity |].
  apply (@download_image_decodes_the_whole_body Demo.env "http://img/ab"
           Demo.fresh "1" 1%Z (list_byte_of_string "http://img/ab"));
    reflexivity.
Defined.
